(** * HarvestGuru client (frontend/src/App.js): session, prediction form, chat

    A shallow embedding of the three stateful React components of
    [frontend/src/App.js] and the properties of their state machines:

    - [Auth]    : [AuthProvider] (token, user, [fetchUser], [login], [logout])
                  and the screen chosen by [MainApp];
    - [Predict] : [CropPredictionForm] (form data, district fetches, submit,
                  result view);
    - [Chat]    : [ChatAssistant] (transcript, pending input, [sendMessage]).

    Each component is a record of its [useState] cells plus the requests it
    has in flight; a UI event or the settlement of a request is one step.
    An [await] splits a handler in two steps: the part before the request
    is issued and the continuation run when the response or the error
    arrives. *)

From Stdlib Require Import Ascii String QArith.
From stdpp Require Import gmap strings list fin_maps.

Open Scope string_scope.
Open Scope list_scope.

(** ** JavaScript values and built-ins used by the components *)

Module JS.

(** Numbers as [parseFloat] produces them.  Finite values are kept as exact
    rationals: the rounding to binary64 and the sign of zero are not
    modelled. *)
Inductive jsnum :=
| NaN
| Fin (q : Q)
| Inf (negative : bool).

(** The values that occur as fields of the objects built by the handlers. *)
Inductive jsval :=
| Undefined
| Null
| Str (s : string)
| Num (n : jsnum).

(** [ToBoolean] on these values. *)
Definition truthy (v : jsval) : bool :=
  match v with
  | Undefined | Null => false
  | Str s => negb (String.eqb s "")
  | Num NaN => false
  | Num (Fin q) => negb (Qnum q =? 0)%Z
  | Num (Inf _) => true
  end.

(** [a || b] on values. *)
Definition or_else (a b : jsval) : jsval := if truthy a then a else b.

(** White space of [String.prototype.trim] and of [parseFloat]: the code
    points WhiteSpace and LineTerminator of the language.  A [string] here
    is the UTF-8 encoding of the JavaScript string, so a white-space code
    point is one, two or three bytes:
    - TAB, LF, VT, FF, CR and SPACE (bytes 9 to 13 and 32);
    - U+00A0 (C2 A0);
    - U+1680 (E1 9A 80), U+2000 to U+200A (E2 80 80 to E2 80 8A),
      U+2028 and U+2029 (E2 80 A8, E2 80 A9), U+202F (E2 80 AF),
      U+205F (E2 81 9F), U+3000 (E3 80 80) and U+FEFF (EF BB BF). *)
Definition is_space (a : ascii) : bool :=
  let n := nat_of_ascii a in
  ((9 <=? n)%nat && (n <=? 13)%nat) || (n =? 32)%nat.

Definition is_space2 (a b : ascii) : bool :=
  (nat_of_ascii a =? 194)%nat && (nat_of_ascii b =? 160)%nat.

Definition is_space3 (a b c : ascii) : bool :=
  let x := nat_of_ascii a in
  let y := nat_of_ascii b in
  let z := nat_of_ascii c in
  ((x =? 225) && (y =? 154) && (z =? 128))%nat
  || ((x =? 226) && (y =? 128)
      && (((128 <=? z) && (z <=? 138)) || (z =? 168) || (z =? 169)
          || (z =? 175)))%nat
  || ((x =? 226) && (y =? 129) && (z =? 159))%nat
  || ((x =? 227) && (y =? 128) && (z =? 128))%nat
  || ((x =? 239) && (y =? 187) && (z =? 191))%nat.

(** The tests on a list read from its start ([fwd]) or from its end, where
    the bytes of a code point come in reverse. *)
Definition space2 (fwd : bool) (a b : ascii) : bool :=
  if fwd then is_space2 a b else is_space2 b a.

Definition space3 (fwd : bool) (a b c : ascii) : bool :=
  if fwd then is_space3 a b c else is_space3 c b a.

(** Drops the white-space code points the list begins with. *)
Fixpoint strip (fwd : bool) (l : list ascii) : list ascii :=
  match l with
  | a :: l1 =>
      if is_space a then strip fwd l1
      else
        match l1 with
        | b :: l2 =>
            if space2 fwd a b then strip fwd l2
            else
              match l2 with
              | c :: l3 => if space3 fwd a b c then strip fwd l3 else l
              | [] => l
              end
        | [] => l
        end
  | [] => []
  end.

Definition trimStart (l : list ascii) : list ascii := strip true l.

Definition trimEnd (l : list ascii) : list ascii := rev (strip false (rev l)).

(** The list is a sequence of white-space code points, read from its
    start ([fwd]) or from its end. *)
Inductive white (fwd : bool) : list ascii -> Prop :=
| white_nil : white fwd []
| white_1 a l : is_space a = true -> white fwd l -> white fwd (a :: l)
| white_2 a b l :
    space2 fwd a b = true -> white fwd l -> white fwd (a :: b :: l)
| white_3 a b c l :
    space3 fwd a b c = true -> white fwd l -> white fwd (a :: b :: c :: l).

(** [s.trim()] *)
Definition trim (s : string) : string :=
  string_of_list_ascii (trimEnd (trimStart (list_ascii_of_string s))).

Definition digit_of (a : ascii) : option Z :=
  let n := nat_of_ascii a in
  if ((48 <=? n)%nat && (n <=? 57)%nat) then Some (Z.of_nat (n - 48)) else None.

(** Reads the longest run of decimal digits: the number read so far, how
    many digits were read, and the rest of the input. *)
Fixpoint digits (acc : Z) (count : nat) (l : list ascii) : Z * nat * list ascii :=
  match l with
  | a :: l' =>
      match digit_of a with
      | Some d => digits (10 * acc + d) (S count) l'
      | None => (acc, count, l)
      end
  | [] => (acc, count, [])
  end.

Definition sign (l : list ascii) : bool * list ascii :=
  match l with
  | "-"%char :: l' => (true, l')
  | "+"%char :: l' => (false, l')
  | _ => (false, l)
  end.

(** The exponent part, if a complete one follows; otherwise exponent 0. *)
Definition exponent (l : list ascii) : Z :=
  match l with
  | a :: l' =>
      if (Ascii.eqb a "e" || Ascii.eqb a "E")%char then
        let '(neg, l'') := sign l' in
        let '(e, n, _) := digits 0 0 l'' in
        match n with
        | O => 0
        | _ => if neg then - e else e
        end
      else 0
  | [] => 0
  end%Z.

Definition scale (m e : Z) : Q :=
  if (0 <=? e)%Z then (m * 10 ^ e) # 1 else m # Z.to_pos (10 ^ (- e)).

Definition is_prefix (p l : list ascii) : bool :=
  bool_decide (take (List.length p) l = p).

(** [parseFloat(s)]: leading white space is skipped and the longest prefix
    that is a decimal literal ([Infinity], digits with an optional fraction
    and exponent) is read; with no such prefix the result is [NaN]. *)
Definition parseFloat (s : string) : jsnum :=
  let '(neg, l) := sign (trimStart (list_ascii_of_string s)) in
  if is_prefix (list_ascii_of_string "Infinity") l then Inf neg
  else
    let '(ip, ni, l1) := digits 0 0 l in
    let '(m, nf, l2) :=
      match l1 with
      | "."%char :: l1' =>
          let '(m, nf, l2) := digits ip 0 l1' in
          match ni, nf with
          | O, O => (0%Z, O, l1)
          | _, _ => (m, nf, l2)
          end
      | _ => (ip, O, l1)
      end in
    match (ni + nf)%nat with
    | O => NaN
    | _ =>
        let q := scale m (exponent l2 - Z.of_nat nf) in
        Fin (if neg then Qopp q else q)
    end.

(** [parseFloat(v)] on a value: the argument is converted to a string
    first, and ["undefined"] and ["null"] are no numbers. *)
Definition parseFloat_val (v : jsval) : jsnum :=
  match v with
  | Str s => parseFloat s
  | Num n => n
  | Undefined | Null => NaN
  end.

(** A nullable string ([localStorage.getItem], a token cell) as a value. *)
Definition of_nullable (o : option string) : jsval :=
  match o with
  | Some s => Str s
  | None => Null
  end.

(** [n > 0] *)
Definition positive (n : jsnum) : bool :=
  match n with
  | Fin q => (0 <? Qnum q)%Z
  | Inf negative => negb negative
  | NaN => false
  end.

End JS.

(** ** AuthProvider and the screen chosen by MainApp *)

Module Auth.

Record User := {
  id : string;
  email : string;
  name : string;
  phone : string
}.

(** The three [useState] cells of [AuthProvider], the two pieces of ambient
    state it writes, and the [GET /auth/me] requests in flight. *)
Record state := {
  user : option User;
  token : option string;
  loading : bool;
  localStorage_token : option string;
  authorization : option string;
  me_requests : nat
}.

(** The component before its first effect: [token] is read from storage. *)
Definition init (persisted : option string) : state :=
  {| user := None;
     token := persisted;
     loading := true;
     localStorage_token := persisted;
     authorization := None;
     me_requests := 0 |}.

Definition bearer (t : string) : string := ("Bearer " ++ t)%string.

(** The body of [useEffect(..., [token])]; the call of [fetchUser] issues
    the profile request. *)
Definition token_effect (s : state) : state :=
  match token s with
  | Some t =>
      if JS.truthy (JS.Str t) then
        {| user := user s;
           token := token s;
           loading := loading s;
           localStorage_token := localStorage_token s;
           authorization := Some (bearer t);
           me_requests := S (me_requests s) |}
      else
        {| user := user s;
           token := token s;
           loading := false;
           localStorage_token := localStorage_token s;
           authorization := authorization s;
           me_requests := me_requests s |}
  | None =>
      {| user := user s;
         token := token s;
         loading := false;
         localStorage_token := localStorage_token s;
         authorization := authorization s;
         me_requests := me_requests s |}
  end.

(** The effect runs after a render in which [token] differs from the
    previous render's. *)
Definition rerender (previous : option string) (s : state) : state :=
  if decide (token s = previous) then s else token_effect s.

Inductive event :=
| MeOk (profile : User)
| MeFail
| LoginOk (access_token : string)
| LoginFail
| RegisterOk (access_token : string)
| RegisterFail
| Logout.

(** [fetchUser] after the [await]: [setUser(response.data)], then the
    [finally] block. *)
Definition fetchUser_then (profile : User) (s : state) : state :=
  {| user := Some profile;
     token := token s;
     loading := false;
     localStorage_token := localStorage_token s;
     authorization := authorization s;
     me_requests := pred (me_requests s) |}.

(** [fetchUser], the [catch] and [finally] blocks. *)
Definition fetchUser_catch (s : state) : state :=
  {| user := user s;
     token := None;
     loading := false;
     localStorage_token := None;
     authorization := None;
     me_requests := pred (me_requests s) |}.

(** [login] and [register] after the [await] of a successful response. *)
Definition login_then (access_token : string) (s : state) : state :=
  {| user := user s;
     token := Some access_token;
     loading := loading s;
     localStorage_token := Some access_token;
     authorization := Some (bearer access_token);
     me_requests := me_requests s |}.

Definition logout (s : state) : state :=
  {| user := None;
     token := None;
     loading := loading s;
     localStorage_token := None;
     authorization := None;
     me_requests := me_requests s |}.

(** A rejected [login] or [register] throws to [LoginForm.handleSubmit]
    before any statement after the [await] runs. *)
Definition handle (e : event) (s : state) : state :=
  match e with
  | MeOk profile =>
      match me_requests s with
      | O => s
      | S _ => fetchUser_then profile s
      end
  | MeFail =>
      match me_requests s with
      | O => s
      | S _ => fetchUser_catch s
      end
  | LoginOk t | RegisterOk t => login_then t s
  | LoginFail | RegisterFail => s
  | Logout => logout s
  end.

Definition step (s : state) (e : event) : state :=
  rerender (token s) (handle e s).

(** Mounting runs the effect once. *)
Definition start (persisted : option string) : state :=
  token_effect (init persisted).

Definition run (persisted : option string) (es : list event) : state :=
  foldl step (start persisted) es.

(** What [MainApp] returns. *)
Inductive screen := LoadingScreen | LoginScreen | AppScreen.

Definition view (s : state) : screen :=
  if loading s then LoadingScreen
  else match user s with
       | None => LoginScreen
       | Some _ => AppScreen
       end.

End Auth.

(** ** CropPredictionForm *)

Module Predict.

Record PredictionResult := {
  predicted_yield : Q;
  yield_unit : string;
  district_average : Q;
  comparison_percentage : Q;
  confidence_score : Q;
  recommendations : list string
}.

(** The argument of [toast]; [destructive] stands for
    [variant: "destructive"]. *)
Record Toast := {
  title : string;
  description : JS.jsval;
  destructive : bool
}.

(** What a rejected request throws: an error whose
    [response?.data?.detail] is the given value, [Undefined] when the error
    carries no response or no detail. *)
Record error := { detail : JS.jsval }.

(** The body of [POST /predict-yield]. *)
Record farm_details_t := {
  state : JS.jsval;
  district : JS.jsval;
  village : JS.jsval;
  pincode : JS.jsval;
  farm_size : JS.jsnum;
  farm_size_unit : JS.jsval
}.

Record crop_info_t := {
  crop_name : JS.jsval;
  variety : JS.jsval;
  sowing_date : JS.jsval;
  season : JS.jsval
}.

Record soil_inputs_t := {
  soil_type : JS.jsval;
  fertilizer_used : JS.jsval;
  ph_level : JS.jsval;
  organic_carbon : JS.jsval
}.

Record irrigation_info_t := {
  irrigation_source : JS.jsval;
  irrigation_frequency : JS.jsval;
  water_availability : JS.jsval
}.

Record request := {
  user_id : string;
  farm_details : farm_details_t;
  crop_info : crop_info_t;
  soil_inputs : soil_inputs_t;
  irrigation_info : irrigation_info_t
}.

(** The cells of the component that the handlers below read or write, and
    the requests in flight: the state named by each pending
    [GET /districts/{state}] in the order of issue, and the body of each
    pending [POST /predict-yield].  The option lists [states], [crops] and
    [soilTypes] and their three fetches touch none of these cells. *)
Record form := {
  formData : gmap string string;
  districts : list string;
  loading : bool;
  prediction : option PredictionResult;
  toasts : list Toast;
  district_requests : list string;
  predict_requests : list request
}.

Definition initialFormData : gmap string string :=
  list_to_map
    [ ("state", ""); ("district", ""); ("village", ""); ("pincode", "");
      ("farm_size", ""); ("farm_size_unit", "hectare");
      ("crop_name", ""); ("variety", ""); ("sowing_date", ""); ("season", "");
      ("soil_type", ""); ("fertilizer_used", ""); ("ph_level", "");
      ("organic_carbon", "");
      ("irrigation_source", ""); ("irrigation_frequency", "");
      ("water_availability", "") ].

Definition init : form :=
  {| formData := initialFormData;
     districts := [];
     loading := false;
     prediction := None;
     toasts := [];
     district_requests := [];
     predict_requests := [] |}.

(** [formData.key] *)
Definition get (fd : gmap string string) (key : string) : JS.jsval :=
  match fd !! key with
  | Some v => JS.Str v
  | None => JS.Undefined
  end.

Definition setFormData (fd : gmap string string) (s : form) : form :=
  {| formData := fd; districts := districts s; loading := loading s;
     prediction := prediction s; toasts := toasts s;
     district_requests := district_requests s;
     predict_requests := predict_requests s |}.

Definition setDistricts (ds : list string) (s : form) : form :=
  {| formData := formData s; districts := ds; loading := loading s;
     prediction := prediction s; toasts := toasts s;
     district_requests := district_requests s;
     predict_requests := predict_requests s |}.

Definition setLoading (b : bool) (s : form) : form :=
  {| formData := formData s; districts := districts s; loading := b;
     prediction := prediction s; toasts := toasts s;
     district_requests := district_requests s;
     predict_requests := predict_requests s |}.

Definition setPrediction (p : option PredictionResult) (s : form) : form :=
  {| formData := formData s; districts := districts s; loading := loading s;
     prediction := p; toasts := toasts s;
     district_requests := district_requests s;
     predict_requests := predict_requests s |}.

Definition toast (t : Toast) (s : form) : form :=
  {| formData := formData s; districts := districts s; loading := loading s;
     prediction := prediction s; toasts := toasts s ++ [t];
     district_requests := district_requests s;
     predict_requests := predict_requests s |}.

Definition set_district_requests (l : list string) (s : form) : form :=
  {| formData := formData s; districts := districts s; loading := loading s;
     prediction := prediction s; toasts := toasts s;
     district_requests := l;
     predict_requests := predict_requests s |}.

Definition set_predict_requests (l : list request) (s : form) : form :=
  {| formData := formData s; districts := districts s; loading := loading s;
     prediction := prediction s; toasts := toasts s;
     district_requests := district_requests s;
     predict_requests := l |}.

Definition error_toast (d : JS.jsval) : Toast :=
  {| title := "Error"; description := d; destructive := true |}.

Definition success_toast (d : string) : Toast :=
  {| title := "Success"; description := JS.Str d; destructive := false |}.

(** [handleInputChange]: [{...prev, [field]: value}] *)
Definition handleInputChange (field value : string) (s : form) : form :=
  setFormData (<[field := value]> (formData s)) s.

(** [fetchDistricts(state)] up to the [await]. *)
Definition fetchDistricts (st : string) (s : form) : form :=
  set_district_requests (district_requests s ++ [st]) s.

(** The body of [useEffect(..., [formData.state])]. *)
Definition state_effect (s : form) : form :=
  match get (formData s) "state" with
  | JS.Str st => if JS.truthy (JS.Str st) then fetchDistricts st s else s
  | _ => s
  end.

(** The effect runs after a render in which [formData.state] differs from
    the previous render's. *)
Definition rerender (previous : option string) (s : form) : form :=
  if decide (formData s !! "state" = previous) then s else state_effect s.

(** The [disabled] attribute of the submit button. *)
Definition submit_disabled (s : form) : bool :=
  let fd := formData s in
  loading s
  || negb (JS.truthy (get fd "state"))
  || negb (JS.truthy (get fd "crop_name"))
  || negb (JS.truthy (get fd "season"))
  || negb (JS.truthy (get fd "soil_type"))
  || negb (JS.truthy (get fd "irrigation_source"))
  || negb (JS.truthy (get fd "irrigation_frequency"))
  || negb (JS.truthy (get fd "farm_size")).

(** The object literal [requestData]; reading [user.id] of a [null] user
    throws, which is [None]. *)
Definition requestData (user : option Auth.User) (fd : gmap string string)
  : option request :=
  match user with
  | None => None
  | Some u =>
      Some
        {| user_id := Auth.id u;
           farm_details :=
             {| state := get fd "state";
                district := get fd "district";
                village := get fd "village";
                pincode := get fd "pincode";
                farm_size := JS.parseFloat_val (get fd "farm_size");
                farm_size_unit := get fd "farm_size_unit" |};
           crop_info :=
             {| crop_name := get fd "crop_name";
                variety := get fd "variety";
                sowing_date := get fd "sowing_date";
                season := get fd "season" |};
           soil_inputs :=
             {| soil_type := get fd "soil_type";
                fertilizer_used := get fd "fertilizer_used";
                ph_level :=
                  if JS.truthy (get fd "ph_level")
                  then JS.Num (JS.parseFloat_val (get fd "ph_level"))
                  else JS.Null;
                organic_carbon :=
                  if JS.truthy (get fd "organic_carbon")
                  then JS.Num (JS.parseFloat_val (get fd "organic_carbon"))
                  else JS.Null |};
           irrigation_info :=
             {| irrigation_source := get fd "irrigation_source";
                irrigation_frequency := get fd "irrigation_frequency";
                water_availability := get fd "water_availability" |} |}
  end.

Definition generic_failure : JS.jsval := JS.Str "Failed to generate prediction".

(** [handleSubmit] up to the [await]; when building [requestData] throws,
    the [catch] and [finally] blocks run at once. *)
Definition handleSubmit (user : option Auth.User) (s : form) : form :=
  let s1 := setLoading true s in
  match requestData user (formData s1) with
  | Some body => set_predict_requests (predict_requests s1 ++ [body]) s1
  | None =>
      setLoading false
        (toast (error_toast (JS.or_else JS.Undefined generic_failure)) s1)
  end.

(** [handleSubmit] after the [await], then [finally]. *)
Definition handleSubmit_then (r : PredictionResult) (s : form) : form :=
  setLoading false
    (toast (success_toast "Crop yield prediction generated successfully!")
       (setPrediction (Some r) s)).

(** [handleSubmit], the [catch] and [finally] blocks. *)
Definition handleSubmit_catch (e : error) (s : form) : form :=
  setLoading false
    (toast (error_toast (JS.or_else (detail e) generic_failure)) s).

(** [fetchDistricts] after the [await]. *)
Definition fetchDistricts_then (ds : list string) (s : form) : form :=
  setDistricts ds s.

Definition fetchDistricts_catch (s : form) : form :=
  toast (error_toast (JS.Str "Failed to fetch districts")) s.

Inductive event :=
| Change (field value : string)
| Submit
| MakeAnother
| DistrictsOk (i : nat)
| DistrictsFail (i : nat)
| PredictOk (r : PredictionResult)
| PredictFail (e : error).

Section Step.

(** The environment of the component: what [GET /districts/{state}]
    answers for a state, and the [user] of the auth context. *)
Variable districts_of : string -> list string.
Variable user : option Auth.User.

(** One event.  The form and its controls exist only while [prediction] is
    [null], the result view and its button only otherwise; the district
    select is disabled while [formData.state] is empty, the submit button
    while [submit_disabled]; [DistrictsOk i] and [DistrictsFail i] settle
    the [i]-th pending district request, [PredictOk] and [PredictFail] the
    oldest pending submission.  [Submit] is the form's submit event
    reaching [handleSubmit]: the browser's own validation of the number
    inputs ([step], [min], [max]) happens before it and is not part of the
    component. *)
Definition handle (e : event) (s : form) : form :=
  match e with
  | Change field value =>
      match prediction s with
      | Some _ => s
      | None =>
          if String.eqb field "district"
             && negb (JS.truthy (get (formData s) "state"))
          then s
          else handleInputChange field value s
      end
  | Submit =>
      match prediction s with
      | Some _ => s
      | None => if submit_disabled s then s else handleSubmit user s
      end
  | MakeAnother =>
      match prediction s with
      | Some _ => setPrediction None s
      | None => s
      end
  | DistrictsOk i =>
      match district_requests s !! i with
      | Some st =>
          fetchDistricts_then (districts_of st)
            (set_district_requests (delete i (district_requests s)) s)
      | None => s
      end
  | DistrictsFail i =>
      match district_requests s !! i with
      | Some st =>
          fetchDistricts_catch
            (set_district_requests (delete i (district_requests s)) s)
      | None => s
      end
  | PredictOk r =>
      match predict_requests s with
      | _ :: rest => handleSubmit_then r (set_predict_requests rest s)
      | [] => s
      end
  | PredictFail err =>
      match predict_requests s with
      | _ :: rest => handleSubmit_catch err (set_predict_requests rest s)
      | [] => s
      end
  end.

Definition step (s : form) (e : event) : form :=
  rerender (formData s !! "state") (handle e s).

Definition run (es : list event) : form := foldl step init es.

End Step.

(** The stage of the workflow, as the component renders it. *)
Inductive stage_t := Editing | Submitting | Result.

Definition stage (s : form) : stage_t :=
  match prediction s with
  | Some _ => Result
  | None => if loading s then Submitting else Editing
  end.

Definition submit_enabled (s : form) : bool := negb (submit_disabled s).

(** At most one submission is in flight, exactly while [loading], and none
    while a result is shown. *)
Definition submission_inv (s : form) : Prop :=
  (loading s = true /\ prediction s = None
   /\ exists b, predict_requests s = [b])
  \/ (loading s = false /\ predict_requests s = []).

(** The event, if it settles a district request, is the successful answer
    to the oldest one in flight. *)
Definition in_order (e : event) : bool :=
  match e with
  | DistrictsOk i => Nat.eqb i 0
  | DistrictsFail _ => false
  | _ => true
  end.

(** Once the requests in flight are answered in order, the list shown for
    a non-empty [formData.state] will be that state's: the newest request
    in flight asks for it, or none is in flight and the list is already
    its list. *)
Definition districts_inv (districts_of : string -> list string) (s : form) : Prop :=
  forall st,
    formData s !! "state" = Some st -> st <> "" ->
    match last (district_requests s) with
    | Some st' => st' = st
    | None => districts s = districts_of st
    end.

(** The fields the submit button looks at. *)
Definition required_fields : list string :=
  [ "state"; "crop_name"; "season"; "soil_type"; "irrigation_source";
    "irrigation_frequency"; "farm_size" ].

(** The field holds a non-empty string. *)
Definition filled (fd : gmap string string) (key : string) : Prop :=
  exists v, fd !! key = Some v /\ v <> "".

(** The enabling condition in the words of the specification, for
    comparison with [submit_enabled]: no submission in flight, every
    required field non-empty, and [farm_size] parsing as a positive
    number. *)
Definition spec_submit_enabled (s : form) : bool :=
  negb (loading s)
  && forallb (fun key => JS.truthy (get (formData s) key)) required_fields
  && JS.positive (JS.parseFloat_val (get (formData s) "farm_size")).

End Predict.

(** ** ChatAssistant *)

Module Chat.

Inductive speaker := user | bot.

#[global] Instance speaker_eq_dec : EqDecision speaker.
Proof. solve_decision. Defined.

Record Message := {
  type : speaker;
  content : string;
  language : string;
  recommendations : option (list string)
}.

(** The body of [POST /chat], kept for each request in flight: its
    [language] is also the [selectedLanguage] that the continuation of
    [sendMessage] closes over. *)
Record payload := {
  message : string;
  payload_language : string
}.

Record chat := {
  messages : list Message;
  newMessage : string;
  selectedLanguage : string;
  loading : bool;
  toasts : list Predict.Toast;
  requests : list payload
}.

Definition greeting : Message :=
  {| type := bot;
     content := "Hello! I'm your farming assistant. How can I help you today?";
     language := "en";
     recommendations := None |}.

Definition init : chat :=
  {| messages := [greeting];
     newMessage := "";
     selectedLanguage := "en";
     loading := false;
     toasts := [];
     requests := [] |}.

Definition setMessages (f : list Message -> list Message) (s : chat) : chat :=
  {| messages := f (messages s); newMessage := newMessage s;
     selectedLanguage := selectedLanguage s; loading := loading s;
     toasts := toasts s; requests := requests s |}.

Definition setNewMessage (t : string) (s : chat) : chat :=
  {| messages := messages s; newMessage := t;
     selectedLanguage := selectedLanguage s; loading := loading s;
     toasts := toasts s; requests := requests s |}.

Definition setSelectedLanguage (l : string) (s : chat) : chat :=
  {| messages := messages s; newMessage := newMessage s;
     selectedLanguage := l; loading := loading s;
     toasts := toasts s; requests := requests s |}.

Definition setLoading (b : bool) (s : chat) : chat :=
  {| messages := messages s; newMessage := newMessage s;
     selectedLanguage := selectedLanguage s; loading := b;
     toasts := toasts s; requests := requests s |}.

Definition toast (t : Predict.Toast) (s : chat) : chat :=
  {| messages := messages s; newMessage := newMessage s;
     selectedLanguage := selectedLanguage s; loading := loading s;
     toasts := toasts s ++ [t]; requests := requests s |}.

Definition set_requests (l : list payload) (s : chat) : chat :=
  {| messages := messages s; newMessage := newMessage s;
     selectedLanguage := selectedLanguage s; loading := loading s;
     toasts := toasts s; requests := l |}.

(** [!newMessage.trim()] *)
Definition blank (t : string) : bool := negb (JS.truthy (JS.Str (JS.trim t))).

(** [sendMessage] up to the [await]. *)
Definition sendMessage (s : chat) : chat :=
  if blank (newMessage s) then s
  else
    let userMessage :=
      {| type := user;
         content := newMessage s;
         language := selectedLanguage s;
         recommendations := None |} in
    let s1 := setMessages (fun prev => prev ++ [userMessage]) s in
    let s2 := setLoading true s1 in
    set_requests
      (requests s2
         ++ [ {| message := newMessage s;
                 payload_language := selectedLanguage s |} ])
      s2.

(** [sendMessage] after the [await], then [finally]. *)
Definition sendMessage_then (sent : payload) (response : string)
    (recs : option (list string)) (s : chat) : chat :=
  let botMessage :=
    {| type := bot;
       content := response;
       language := payload_language sent;
       recommendations := recs |} in
  setNewMessage ""
    (setLoading false (setMessages (fun prev => prev ++ [botMessage]) s)).

(** [sendMessage], the [catch] and [finally] blocks. *)
Definition sendMessage_catch (s : chat) : chat :=
  setNewMessage ""
    (setLoading false
       (toast
          (Predict.error_toast
             (JS.Str "Failed to get response from assistant"))
          s)).

Definition quick_questions : list string :=
  [ "How often should I water my crops?";
    "What fertilizer is best for rice?";
    "How to control pests naturally?";
    "When to harvest wheat?";
    "Best irrigation practices";
    "Soil pH management" ].

Inductive event :=
| Type_ (text : string)
| Quick (i : nat)
| SelectLanguage (code : string)
| ClickSend
| PressEnter
| ChatOk (response : string) (recs : option (list string))
| ChatFail.

(** One event.  The textarea is disabled while [loading], the send button
    while [loading || !newMessage.trim()]; the quick-question buttons and
    the language select are always enabled.  [ChatOk] and [ChatFail] settle
    the oldest request in flight. *)
Definition step (s : chat) (e : event) : chat :=
  match e with
  | Type_ text => if loading s then s else setNewMessage text s
  | Quick i =>
      match quick_questions !! i with
      | Some question => setNewMessage question s
      | None => s
      end
  | SelectLanguage code => setSelectedLanguage code s
  | ClickSend =>
      if loading s || blank (newMessage s) then s else sendMessage s
  | PressEnter => if loading s then s else sendMessage s
  | ChatOk response recs =>
      match requests s with
      | sent :: rest => sendMessage_then sent response recs (set_requests rest s)
      | [] => s
      end
  | ChatFail =>
      match requests s with
      | _ :: rest => sendMessage_catch (set_requests rest s)
      | [] => s
      end
  end.

(** Whether the event is a send that is carried out, and whether it is a
    response that succeeds, in the state it meets. *)
Definition accepted (s : chat) (e : event) : bool :=
  match e with
  | ClickSend | PressEnter => negb (loading s) && negb (blank (newMessage s))
  | _ => false
  end.

Definition rejected (s : chat) (e : event) : bool :=
  match e with
  | ClickSend | PressEnter => loading s || blank (newMessage s)
  | _ => false
  end.

Definition succeeded (s : chat) (e : event) : bool :=
  match e, requests s with
  | ChatOk _ _, _ :: _ => true
  | _, _ => false
  end.

Definition failed (s : chat) (e : event) : bool :=
  match e, requests s with
  | ChatFail, _ :: _ => true
  | _, _ => false
  end.

(** Runs the events and counts those that satisfy [p] where they occur. *)
Fixpoint count (p : chat -> event -> bool) (s : chat) (es : list event) : nat :=
  match es with
  | e :: es' => (if p s e then 1 else 0) + count p (step s e) es'
  | [] => 0
  end.

Definition run (s : chat) (es : list event) : chat := foldl step s es.

(** At most one request is in flight, exactly while [loading]. *)
Definition chat_inv (s : chat) : Prop :=
  (loading s = true /\ exists sent, requests s = [sent])
  \/ (loading s = false /\ requests s = []).

Definition user_turns (s : chat) : nat :=
  List.length (filter (fun m => type m = user) (messages s)).

Definition bot_turns (s : chat) : nat :=
  List.length (filter (fun m => type m = bot) (messages s)).

End Chat.

(** ** Concrete runs used as examples *)

Module Examples.
Import Predict.

Definition farmer : Auth.User :=
  {| Auth.id := "u1"; Auth.email := "farmer@example.org";
     Auth.name := "Asha"; Auth.phone := "0000000000" |}.

(** A district service with two states. *)
Definition server (st : string) : list string :=
  if String.eqb st "Odisha" then ["Puri"; "Cuttack"]
  else if String.eqb st "Bihar" then ["Patna"; "Gaya"]
  else [].

(** The user fills in every required field, with the given farm size. *)
Definition fill (farm_size : string) : list event :=
  [ Change "state" "Odisha"; DistrictsOk 0; Change "district" "Puri";
    Change "crop_name" "Rice"; Change "season" "Kharif";
    Change "soil_type" "Alluvial"; Change "irrigation_source" "Canal";
    Change "irrigation_frequency" "Regularly";
    Change "farm_size" farm_size ].

(** Fill in the form, submit, and receive a prediction. *)
Definition predicted (r : PredictionResult) : list event :=
  fill "2.5" ++ [Submit; PredictOk r].

Definition a_result : PredictionResult :=
  {| predicted_yield := 3 # 1; yield_unit := "t/ha";
     district_average := 5 # 2; comparison_percentage := 20 # 1;
     confidence_score := 80 # 1; recommendations := ["Irrigate weekly"] |}.

End Examples.

(** ** The option lists of CropPredictionForm *)

Module RefData.

Record SoilType := {
  name : string;
  description : string
}.

(** The cells [states], [crops] and [soilTypes] of [CropPredictionForm],
    the toasts of their three fetches, and whether each request is still in
    flight. *)
Record refs := {
  states : list string;
  crops : list string;
  soilTypes : list SoilType;
  toasts : list Predict.Toast;
  states_request : bool;
  crops_request : bool;
  soilTypes_request : bool
}.

(** After [useEffect(..., [])]: [fetchStates(); fetchCrops();
    fetchSoilTypes()] have each issued their request. *)
Definition mounted : refs :=
  {| states := []; crops := []; soilTypes := []; toasts := [];
     states_request := true; crops_request := true;
     soilTypes_request := true |}.

Inductive event :=
| StatesOk (l : list string)
| StatesFail
| CropsOk (l : list string)
| CropsFail
| SoilTypesOk (l : list SoilType)
| SoilTypesFail.

Definition failure (what : string) (s : refs) : list Predict.Toast :=
  toasts s ++ [Predict.error_toast (JS.Str what)].

(** The continuation of [fetchStates], [fetchCrops] or [fetchSoilTypes];
    an event whose request is not in flight does not occur. *)
Definition step (s : refs) (e : event) : refs :=
  match e with
  | StatesOk l =>
      if states_request s then
        {| states := l; crops := crops s; soilTypes := soilTypes s;
           toasts := toasts s; states_request := false;
           crops_request := crops_request s;
           soilTypes_request := soilTypes_request s |}
      else s
  | StatesFail =>
      if states_request s then
        {| states := states s; crops := crops s; soilTypes := soilTypes s;
           toasts := failure "Failed to fetch states" s;
           states_request := false;
           crops_request := crops_request s;
           soilTypes_request := soilTypes_request s |}
      else s
  | CropsOk l =>
      if crops_request s then
        {| states := states s; crops := l; soilTypes := soilTypes s;
           toasts := toasts s; states_request := states_request s;
           crops_request := false;
           soilTypes_request := soilTypes_request s |}
      else s
  | CropsFail =>
      if crops_request s then
        {| states := states s; crops := crops s; soilTypes := soilTypes s;
           toasts := failure "Failed to fetch crops" s;
           states_request := states_request s;
           crops_request := false;
           soilTypes_request := soilTypes_request s |}
      else s
  | SoilTypesOk l =>
      if soilTypes_request s then
        {| states := states s; crops := crops s; soilTypes := l;
           toasts := toasts s; states_request := states_request s;
           crops_request := crops_request s;
           soilTypes_request := false |}
      else s
  | SoilTypesFail =>
      if soilTypes_request s then
        {| states := states s; crops := crops s; soilTypes := soilTypes s;
           toasts := failure "Failed to fetch soil types" s;
           states_request := states_request s;
           crops_request := crops_request s;
           soilTypes_request := false |}
      else s
  end.

Definition run (s : refs) (es : list event) : refs := foldl step s es.

(** How the request for each list was answered in a sequence of events:
    not yet, with a list, or with a failure. *)
Inductive answer (A : Type) := Pending | Answered (l : list A) | Failed.
Arguments Pending {A}.
Arguments Answered {A} l.
Arguments Failed {A}.

Fixpoint states_answer (es : list event) : answer string :=
  match es with
  | StatesOk l :: _ => Answered l
  | StatesFail :: _ => Failed
  | _ :: es' => states_answer es'
  | [] => Pending
  end.

Fixpoint crops_answer (es : list event) : answer string :=
  match es with
  | CropsOk l :: _ => Answered l
  | CropsFail :: _ => Failed
  | _ :: es' => crops_answer es'
  | [] => Pending
  end.

Fixpoint soilTypes_answer (es : list event) : answer SoilType :=
  match es with
  | SoilTypesOk l :: _ => Answered l
  | SoilTypesFail :: _ => Failed
  | _ :: es' => soilTypes_answer es'
  | [] => Pending
  end.

(** The list a cell holds for an answer, and whether the answer is a
    failure. *)
Definition shown {A : Type} (a : answer A) : list A :=
  match a with
  | Answered l => l
  | Pending | Failed => []
  end.

Definition is_failed {A : Type} (a : answer A) : nat :=
  match a with
  | Failed => 1
  | Pending | Answered _ => 0
  end.

Definition is_pending {A : Type} (a : answer A) : bool :=
  match a with
  | Pending => true
  | Answered _ | Failed => false
  end.

End RefData.

(** ** Dashboard *)

Module Dashboard.

(** An entry of [response.data.predictions], with the parts the component
    reads; [input_data] and [crop_info] may be missing. *)
Record crop_info_t := { crop_name : JS.jsval }.

Record input_data_t := { crop_info : option crop_info_t }.

Record prediction_t := {
  input_data : option input_data_t;
  created_at : string;
  predicted_yield : Q;
  yield_unit : string;
  comparison_percentage : Q
}.

Record dashboard := {
  predictions : list prediction_t;
  loading : bool;
  toasts : list Predict.Toast;
  request : bool
}.

(** After [useEffect(..., [])]: [fetchPredictions] has issued its
    request. *)
Definition mounted : dashboard :=
  {| predictions := []; loading := true; toasts := []; request := true |}.

Inductive event :=
| PredictionsOk (l : list prediction_t)
| PredictionsFail.

(** [fetchPredictions] after the [await]. *)
Definition step (s : dashboard) (e : event) : dashboard :=
  if request s then
    match e with
    | PredictionsOk l =>
        {| predictions := l; loading := false; toasts := toasts s;
           request := false |}
    | PredictionsFail =>
        {| predictions := predictions s; loading := false;
           toasts :=
             toasts s
               ++ [Predict.error_toast (JS.Str "Failed to fetch predictions")];
           request := false |}
    end
  else s.

(** [prediction.input_data?.crop_info?.crop_name || 'Unknown Crop'] *)
Definition crop_label (p : prediction_t) : JS.jsval :=
  JS.or_else
    match input_data p with
    | Some d =>
        match crop_info d with
        | Some c => crop_name c
        | None => JS.Undefined
        end
    | None => JS.Undefined
    end
    (JS.Str "Unknown Crop").

(** [prediction.comparison_percentage > 0 ? '+' : ''] *)
Definition sign (p : prediction_t) : string :=
  if negb (Qle_bool (comparison_percentage p) 0) then "+" else "".

(** One entry of "Recent Predictions"; the date shown is left out. *)
Record row := {
  label : JS.jsval;
  yield : Q;
  unit : string;
  prefix : string;
  percentage : Q
}.

Definition row_of (p : prediction_t) : row :=
  {| label := crop_label p;
     yield := predicted_yield p;
     unit := yield_unit p;
     prefix := sign p;
     percentage := comparison_percentage p |}.

Inductive recent_t :=
| NoPredictions
| Rows (rows : list row).

(** What the component returns: the placeholder while [loading], else the
    page with the count in the badge and the recent predictions. *)
Inductive rendered :=
| Skeleton
| Page (badge : nat) (recent : recent_t).

Definition render (s : dashboard) : rendered :=
  if loading s then Skeleton
  else
    Page (List.length (predictions s))
      (if Nat.eqb (List.length (predictions s)) 0 then NoPredictions
       else Rows (map row_of (take 5 (predictions s)))).

End Dashboard.

(** ** The result view of CropPredictionForm *)

Module ResultView.

(** [prediction.comparison_percentage >= 0 ? '+' : ''] *)
Definition sign (r : Predict.PredictionResult) : string :=
  if Qle_bool 0 (Predict.comparison_percentage r) then "+" else "".

End ResultView.

(** ** WeatherDashboard *)

Module Weather.

Record WeatherData := {
  temperature : JS.jsval;
  humidity : JS.jsval;
  description : JS.jsval;
  rainfall : JS.jsval
}.

Record weather := {
  weatherData : option WeatherData;
  loading : bool;
  toasts : list Predict.Toast;
  request : bool
}.

Definition init : weather :=
  {| weatherData := None; loading := false; toasts := []; request := false |}.

(** [fetchWeather(lat, lon)] up to the [await]; the coordinates only
    select the URL. *)
Definition fetchWeather (s : weather) : weather :=
  {| weatherData := weatherData s; loading := true; toasts := toasts s;
     request := true |}.

(** After [useEffect(..., [])]. *)
Definition mounted : weather := fetchWeather init.

(** The mock data of the [catch] block. *)
Definition sample : WeatherData :=
  {| temperature := JS.Num (JS.Fin (57 # 2));
     humidity := JS.Num (JS.Fin (65 # 1));
     description := JS.Str "partly cloudy";
     rainfall := JS.Num (JS.Fin (5 # 2)) |}.

Definition info_toast : Predict.Toast :=
  {| Predict.title := "Info";
     Predict.description := JS.Str "Using sample weather data";
     Predict.destructive := false |}.

Inductive event :=
| WeatherOk (data : WeatherData)
| WeatherFail.

(** [fetchWeather] after the [await]. *)
Definition step (s : weather) (e : event) : weather :=
  if request s then
    match e with
    | WeatherOk data =>
        {| weatherData := Some data; loading := false; toasts := toasts s;
           request := false |}
    | WeatherFail =>
        {| weatherData := Some sample; loading := false;
           toasts := toasts s ++ [info_toast]; request := false |}
    end
  else s.

(** [weatherData?.field] *)
Definition field (f : WeatherData -> JS.jsval) (s : weather) : JS.jsval :=
  match weatherData s with
  | Some d => f d
  | None => JS.Undefined
  end.

(** The four figures of the cards: [weatherData?.temperature || 0] and so
    on, [weatherData?.description || 'Clear']. *)
Record cards := {
  temperature_card : JS.jsval;
  humidity_card : JS.jsval;
  rainfall_card : JS.jsval;
  condition_card : JS.jsval
}.

Definition zero : JS.jsval := JS.Num (JS.Fin 0).

Definition cards_of (s : weather) : cards :=
  {| temperature_card := JS.or_else (field temperature s) zero;
     humidity_card := JS.or_else (field humidity s) zero;
     rainfall_card := JS.or_else (field rainfall s) zero;
     condition_card := JS.or_else (field description s) (JS.Str "Clear") |}.

(** What the component shows: the placeholder while [loading], else the
    cards. *)
Definition render (s : weather) : option cards :=
  if loading s then None else Some (cards_of s).

End Weather.

(** ** LoginForm *)

Module Login.

Record fields := {
  email : string;
  password : string;
  name : string;
  phone : string
}.

(** The call awaited by [handleSubmit]: [login(email, password)] or
    [register(email, password, name, phone)]. *)
Inductive request :=
| LoginRequest (email password : string)
| RegisterRequest (email password name phone : string).

Record login_form := {
  isLogin : bool;
  formData : fields;
  loading : bool;
  toasts : list Predict.Toast;
  requests : list request
}.

Definition init : login_form :=
  {| isLogin := true;
     formData := {| email := ""; password := ""; name := ""; phone := "" |};
     loading := false;
     toasts := [];
     requests := [] |}.

Definition setFormData (fd : fields) (s : login_form) : login_form :=
  {| isLogin := isLogin s; formData := fd; loading := loading s;
     toasts := toasts s; requests := requests s |}.

Definition setIsLogin (b : bool) (s : login_form) : login_form :=
  {| isLogin := b; formData := formData s; loading := loading s;
     toasts := toasts s; requests := requests s |}.

Definition setLoading (b : bool) (s : login_form) : login_form :=
  {| isLogin := isLogin s; formData := formData s; loading := b;
     toasts := toasts s; requests := requests s |}.

Definition toast (t : Predict.Toast) (s : login_form) : login_form :=
  {| isLogin := isLogin s; formData := formData s; loading := loading s;
     toasts := toasts s ++ [t]; requests := requests s |}.

Definition set_requests (l : list request) (s : login_form) : login_form :=
  {| isLogin := isLogin s; formData := formData s; loading := loading s;
     toasts := toasts s; requests := l |}.

(** [handleSubmit] up to the [await]. *)
Definition handleSubmit (s : login_form) : login_form :=
  let fd := formData s in
  let call :=
    if isLogin s then LoginRequest (email fd) (password fd)
    else RegisterRequest (email fd) (password fd) (name fd) (phone fd) in
  set_requests (requests s ++ [call]) (setLoading true s).

(** [handleSubmit] after the [await], then [finally]: the branch of
    [isLogin] is the one the call was made in. *)
Definition handleSubmit_then (sent : request) (s : login_form) : login_form :=
  setLoading false
    (toast
       (Predict.success_toast
          match sent with
          | LoginRequest _ _ => "Logged in successfully!"
          | RegisterRequest _ _ _ _ => "Account created successfully!"
          end)
       s).

(** [handleSubmit], the [catch] and [finally] blocks. *)
Definition handleSubmit_catch (e : Predict.error) (s : login_form) : login_form :=
  setLoading false
    (toast
       (Predict.error_toast
          (JS.or_else (Predict.detail e) (JS.Str "An error occurred")))
       s).

Inductive event :=
| SetName (value : string)
| SetPhone (value : string)
| SetEmail (value : string)
| SetPassword (value : string)
| Toggle
| Submit
| Accepted
| Rejected (e : Predict.error).

(** One event.  The name and phone inputs exist only in registration mode,
    the submit button is disabled while [loading]; the toggle button is
    always enabled.  [Accepted] and [Rejected] settle the oldest call in
    flight.  [Submit] is the form's submit event reaching [handleSubmit]:
    the browser's check of the [required] inputs happens before it and is
    not part of the component. *)
Definition step (s : login_form) (e : event) : login_form :=
  let fd := formData s in
  match e with
  | SetName value =>
      if isLogin s then s
      else setFormData
             {| email := email fd; password := password fd; name := value;
                phone := phone fd |} s
  | SetPhone value =>
      if isLogin s then s
      else setFormData
             {| email := email fd; password := password fd; name := name fd;
                phone := value |} s
  | SetEmail value =>
      setFormData
        {| email := value; password := password fd; name := name fd;
           phone := phone fd |} s
  | SetPassword value =>
      setFormData
        {| email := email fd; password := value; name := name fd;
           phone := phone fd |} s
  | Toggle => setIsLogin (negb (isLogin s)) s
  | Submit => if loading s then s else handleSubmit s
  | Accepted =>
      match requests s with
      | sent :: rest => handleSubmit_then sent (set_requests rest s)
      | [] => s
      end
  | Rejected err =>
      match requests s with
      | _ :: rest => handleSubmit_catch err (set_requests rest s)
      | [] => s
      end
  end.

Definition run (s : login_form) (es : list event) : login_form :=
  foldl step s es.

(** At most one call is in flight, exactly while [loading]. *)
Definition login_inv (s : login_form) : Prop :=
  (loading s = true /\ exists sent, requests s = [sent])
  \/ (loading s = false /\ requests s = []).

(** The event is one of the user's, not the settlement of a call. *)
Definition is_ui (e : event) : bool :=
  match e with
  | Accepted | Rejected _ => false
  | _ => true
  end.

End Login.

(** ** MainApp: the screen, the tabs and the component mounted *)

Module App.

(** The components [renderContent] chooses from. *)
Inductive component := TheDashboard | ThePredictionForm | TheWeather | TheChat.

#[global] Instance component_eq_dec : EqDecision component.
Proof. solve_decision. Defined.

#[global] Instance screen_eq_dec : EqDecision Auth.screen.
Proof. solve_decision. Defined.

(** [renderContent]: the [switch] over [activeTab]. *)
Definition renderContent (activeTab : string) : component :=
  if String.eqb activeTab "dashboard" then TheDashboard
  else if String.eqb activeTab "predict" then ThePredictionForm
  else if String.eqb activeTab "weather" then TheWeather
  else if String.eqb activeTab "chat" then TheChat
  else TheDashboard.

(** The [id]s of [navItems] in [Navigation]. *)
Definition navItems : list string := ["dashboard"; "predict"; "weather"; "chat"].

(** The stateful component mounted below [MainApp], with its state: none
    behind the loading screen, [LoginForm] with no user, else the component
    of the active tab. *)
Inductive mounted :=
| Blank
| OfLogin (l : Login.login_form)
| OfDashboard (d : Dashboard.dashboard)
| OfPredict (f : Predict.form) (r : RefData.refs)
| OfWeather (w : Weather.weather)
| OfChat (c : Chat.chat).

(** [orphans] are the calls of [login] and [register] still in flight
    whose [LoginForm] has been unmounted: their continuation in
    [AuthProvider] still runs when they settle. *)
Record app := {
  auth : Auth.state;
  activeTab : string;
  child : mounted;
  orphans : list Login.request
}.

Definition calls_of (c : mounted) : list Login.request :=
  match c with
  | OfLogin l => Login.requests l
  | _ => []
  end.

(** A component that is mounted starts from its initial state, after its
    mount effects. *)
Definition mount (c : component) : mounted :=
  match c with
  | TheDashboard => OfDashboard Dashboard.mounted
  | ThePredictionForm => OfPredict Predict.init RefData.mounted
  | TheWeather => OfWeather Weather.mounted
  | TheChat => OfChat Chat.init
  end.

Definition child_of (a : Auth.state) (tab : string) : mounted :=
  match Auth.view a with
  | Auth.LoadingScreen => Blank
  | Auth.LoginScreen => OfLogin Login.init
  | Auth.AppScreen => mount (renderContent tab)
  end.

(** After a change of the session: when [MainApp] returns another screen
    than before, what was mounted is unmounted, its state lost, and the new
    screen's component is mounted. *)
Definition with_auth (a : Auth.state) (s : app) : app :=
  if decide (Auth.view a = Auth.view (auth s)) then
    {| auth := a; activeTab := activeTab s; child := child s;
       orphans := orphans s |}
  else
    {| auth := a; activeTab := activeTab s;
       child := child_of a (activeTab s);
       orphans := orphans s ++ calls_of (child s) |}.

Definition with_child (c : mounted) (s : app) : app :=
  {| auth := auth s; activeTab := activeTab s; child := c;
     orphans := orphans s |}.

Definition with_orphans (l : list Login.request) (s : app) : app :=
  {| auth := auth s; activeTab := activeTab s; child := child s;
     orphans := l |}.

(** [setActiveTab(id)]: a tab that renders another component than the
    current one mounts it afresh. *)
Definition setActiveTab (id : string) (s : app) : app :=
  {| auth := auth s;
     activeTab := id;
     child :=
       if decide (renderContent id = renderContent (activeTab s)) then child s
       else mount (renderContent id);
     orphans := orphans s |}.

Definition start (persisted : option string) : app :=
  let a := Auth.start persisted in
  {| auth := a; activeTab := "dashboard"; child := child_of a "dashboard";
     orphans := [] |}.

Inductive event :=
| ProfileOk (profile : Auth.User)
| ProfileFail
| AuthAccepted (access_token : string)
| AuthRejected (e : Predict.error)
| OrphanAccepted (access_token : string)
| OrphanRejected
| OnLogin (e : Login.event)
| NavClick (id : string)
| LogoutClick
| OnDashboard (e : Dashboard.event)
| OnPredict (e : Predict.event)
| OnRefData (e : RefData.event)
| OnWeather (e : Weather.event)
| OnChat (e : Chat.event).

Section Step.

Variable districts_of : string -> list string.

(** One event of the application.  [ProfileOk] and [ProfileFail] settle a
    [GET /auth/me]; [AuthAccepted] and [AuthRejected] settle the oldest call
    of the mounted [LoginForm], first in [login] or [register] of
    [AuthProvider], then in the form's [handleSubmit]; [OrphanAccepted] and
    [OrphanRejected] settle the oldest call of an unmounted form, in
    [AuthProvider] only; the navigation bar,
    with its tabs and its logout button, exists on the application screen
    only; an event of a component reaches it only while it is mounted. *)
Definition step (s : app) (e : event) : app :=
  match e with
  | ProfileOk profile => with_auth (Auth.step (auth s) (Auth.MeOk profile)) s
  | ProfileFail => with_auth (Auth.step (auth s) Auth.MeFail) s
  | AuthAccepted access_token =>
      match child s with
      | OfLogin l =>
          match Login.requests l with
          | Login.LoginRequest _ _ :: _ =>
              with_auth (Auth.step (auth s) (Auth.LoginOk access_token))
                (with_child (OfLogin (Login.step l Login.Accepted)) s)
          | Login.RegisterRequest _ _ _ _ :: _ =>
              with_auth (Auth.step (auth s) (Auth.RegisterOk access_token))
                (with_child (OfLogin (Login.step l Login.Accepted)) s)
          | [] => s
          end
      | _ => s
      end
  | AuthRejected err =>
      match child s with
      | OfLogin l =>
          match Login.requests l with
          | Login.LoginRequest _ _ :: _ =>
              with_auth (Auth.step (auth s) Auth.LoginFail)
                (with_child (OfLogin (Login.step l (Login.Rejected err))) s)
          | Login.RegisterRequest _ _ _ _ :: _ =>
              with_auth (Auth.step (auth s) Auth.RegisterFail)
                (with_child (OfLogin (Login.step l (Login.Rejected err))) s)
          | [] => s
          end
      | _ => s
      end
  | OrphanAccepted access_token =>
      match orphans s with
      | Login.LoginRequest _ _ :: rest =>
          with_auth (Auth.step (auth s) (Auth.LoginOk access_token))
            (with_orphans rest s)
      | Login.RegisterRequest _ _ _ _ :: rest =>
          with_auth (Auth.step (auth s) (Auth.RegisterOk access_token))
            (with_orphans rest s)
      | [] => s
      end
  | OrphanRejected =>
      match orphans s with
      | _ :: rest => with_orphans rest s
      | [] => s
      end
  | OnLogin ev =>
      match child s with
      | OfLogin l =>
          if Login.is_ui ev then with_child (OfLogin (Login.step l ev)) s else s
      | _ => s
      end
  | NavClick id =>
      match Auth.view (auth s) with
      | Auth.AppScreen =>
          if bool_decide (id ∈ navItems) then setActiveTab id s else s
      | _ => s
      end
  | LogoutClick =>
      match Auth.view (auth s) with
      | Auth.AppScreen => with_auth (Auth.step (auth s) Auth.Logout) s
      | _ => s
      end
  | OnDashboard ev =>
      match child s with
      | OfDashboard d => with_child (OfDashboard (Dashboard.step d ev)) s
      | _ => s
      end
  | OnPredict ev =>
      match child s with
      | OfPredict f r =>
          with_child
            (OfPredict (Predict.step districts_of (Auth.user (auth s)) f ev) r)
            s
      | _ => s
      end
  | OnRefData ev =>
      match child s with
      | OfPredict f r => with_child (OfPredict f (RefData.step r ev)) s
      | _ => s
      end
  | OnWeather ev =>
      match child s with
      | OfWeather w => with_child (OfWeather (Weather.step w ev)) s
      | _ => s
      end
  | OnChat ev =>
      match child s with
      | OfChat c => with_child (OfChat (Chat.step c ev)) s
      | _ => s
      end
  end.

Definition run (persisted : option string) (es : list event) : app :=
  foldl step (start persisted) es.

End Step.

(** The component mounted is the one of the screen [MainApp] returns. *)
Definition child_matches (s : app) : Prop :=
  match Auth.view (auth s), child s with
  | Auth.LoadingScreen, Blank => True
  | Auth.LoginScreen, OfLogin _ => True
  | Auth.AppScreen, OfDashboard _ => renderContent (activeTab s) = TheDashboard
  | Auth.AppScreen, OfPredict _ _ =>
      renderContent (activeTab s) = ThePredictionForm
  | Auth.AppScreen, OfWeather _ => renderContent (activeTab s) = TheWeather
  | Auth.AppScreen, OfChat _ => renderContent (activeTab s) = TheChat
  | _, _ => False
  end.

End App.

(** ** Invariants of the session and of the chat *)

Module Invariants.

(** The token cell and the persisted credential agree, and the
    Authorization header is the bearer form of a non-empty token and absent
    without a token. *)
Definition credential_inv (s : Auth.state) : Prop :=
  Auth.localStorage_token s = Auth.token s
  /\ (Auth.token s = None -> Auth.authorization s = None)
  /\ (forall t, Auth.token s = Some t -> t <> "" ->
       Auth.authorization s = Some (Auth.bearer t)).

(** The event settles a submission: it is the response to a
    [POST /predict-yield] or its failure. *)
Definition settles (e : Predict.event) : bool :=
  match e with
  | Predict.PredictOk _ | Predict.PredictFail _ => true
  | _ => false
  end.

(** The field names of the initial form data. *)
Definition field_names : list string :=
  [ "state"; "district"; "village"; "pincode"; "farm_size"; "farm_size_unit";
    "crop_name"; "variety"; "sowing_date"; "season";
    "soil_type"; "fertilizer_used"; "ph_level"; "organic_carbon";
    "irrigation_source"; "irrigation_frequency"; "water_availability" ].

End Invariants.

(** ** More concrete values *)

Module Samples.

(** A prediction that equals the district average, as the result view and
    as the dashboard receive it. *)
Definition level_result : Predict.PredictionResult :=
  {| Predict.predicted_yield := 5 # 2; Predict.yield_unit := "t/ha";
     Predict.district_average := 5 # 2;
     Predict.comparison_percentage := 0;
     Predict.confidence_score := 80 # 1;
     Predict.recommendations := [] |}.

Definition level_entry : Dashboard.prediction_t :=
  {| Dashboard.input_data := None; Dashboard.created_at := "2024-06-01";
     Dashboard.predicted_yield := 5 # 2; Dashboard.yield_unit := "t/ha";
     Dashboard.comparison_percentage := 0 |}.

(** The login form after an e-mail address and a password were typed. *)
Definition typed : Login.login_form :=
  Login.run Login.init
    [Login.SetEmail "farmer@example.org"; Login.SetPassword "secret"].

End Samples.

(** * Properties *)

(** ** Session resolution *)

Module AuthFacts.
Import Auth.

Lemma truthy_Str_nonempty (t : string) : t <> "" -> JS.truthy (JS.Str t) = true.
Proof.
  intros Ht. simpl. destruct (String.eqb_spec t ""); [contradiction|reflexivity].
Qed.

Lemma start_truthy (t : string) :
  t <> "" ->
  start (Some t) =
    {| user := None; token := Some t; loading := true;
       localStorage_token := Some t; authorization := Some (bearer t);
       me_requests := 1 |}.
Proof.
  intros Ht. unfold start, token_effect, init; cbn [token].
  rewrite (truthy_Str_nonempty t Ht). reflexivity.
Qed.

(** A stored credential is only ever removed by the failure branch of
    [fetchUser] or by [logout]: every other event keeps or replaces it. *)
Lemma credential_removed_by (s : state) (e : event) :
  is_Some (localStorage_token s) ->
  localStorage_token (step s e) = None ->
  e = MeFail \/ e = Logout.
Proof.
  intros [t Ht] Hnone.
  destruct e; auto; exfalso; revert Hnone; unfold step, rerender, handle;
    try destruct (me_requests s);
    repeat (case_decide || unfold token_effect, login_then, fetchUser_then;
            cbn [token localStorage_token]);
    repeat case_match; cbn [localStorage_token]; congruence.
Qed.

(** C7. With a non-empty persisted token, start-up sets the Authorization
    header and issues the profile request behind the loading screen.  When
    the request succeeds the profile is stored, the token, the persisted
    credential and the header stay, and the application is shown.  When it
    fails, whatever the failure, the token cell, the persisted credential
    and the header are all cleared and the login screen is shown.  No
    rejected login or registration changes anything, and the only events
    that remove a persisted credential are this failure and the user's own
    logout. *)
Theorem resolveSession_at_startup (t : string) :
  t <> "" ->
  let s0 := start (Some t) in
  (me_requests s0 = 1 /\ authorization s0 = Some ("Bearer " ++ t)%string
   /\ view s0 = LoadingScreen)
  /\ (forall profile,
        let s1 := step s0 (MeOk profile) in
        user s1 = Some profile /\ token s1 = Some t
        /\ localStorage_token s1 = Some t
        /\ authorization s1 = Some ("Bearer " ++ t)%string
        /\ me_requests s1 = 0 /\ view s1 = AppScreen)
  /\ (let s2 := step s0 MeFail in
      token s2 = None /\ localStorage_token s2 = None
      /\ authorization s2 = None /\ user s2 = None
      /\ me_requests s2 = 0 /\ view s2 = LoginScreen)
  /\ (forall s, step s LoginFail = s /\ step s RegisterFail = s)
  /\ (forall s e,
        is_Some (localStorage_token s) ->
        localStorage_token (step s e) = None ->
        e = MeFail \/ e = Logout).
Proof.
  intros Ht s0. subst s0. rewrite (start_truthy t Ht).
  split; [|split; [|split; [|split]]].
  - repeat split.
  - intros profile. unfold step, rerender. cbn.
    rewrite decide_True by reflexivity. repeat split.
  - unfold step, rerender. cbn.
    rewrite decide_False by discriminate. repeat split.
  - intros s. unfold step, rerender. cbn.
    rewrite decide_True by reflexivity. split; reflexivity.
  - apply credential_removed_by.
Qed.

Lemma resolveSession_at_startup_witness :
  let s0 := start (Some "tok") in
  (me_requests s0 = 1 /\ authorization s0 = Some "Bearer tok"
   /\ view s0 = LoadingScreen)
  /\ (forall profile,
        let s1 := step s0 (MeOk profile) in
        user s1 = Some profile /\ token s1 = Some "tok"
        /\ localStorage_token s1 = Some "tok"
        /\ authorization s1 = Some "Bearer tok"
        /\ me_requests s1 = 0 /\ view s1 = AppScreen)
  /\ (let s2 := step s0 MeFail in
      token s2 = None /\ localStorage_token s2 = None
      /\ authorization s2 = None /\ user s2 = None
      /\ me_requests s2 = 0 /\ view s2 = LoginScreen)
  /\ (forall s, step s LoginFail = s /\ step s RegisterFail = s)
  /\ (forall s e,
        is_Some (localStorage_token s) ->
        localStorage_token (step s e) = None ->
        e = MeFail \/ e = Logout).
Proof.
  apply (resolveSession_at_startup "tok"). discriminate.
Defined.

End AuthFacts.

(** ** The prediction form *)

Module PredictFacts.
Import Predict.

Lemma truthy_get (fd : gmap string string) (key : string) :
  JS.truthy (get fd key) = true <-> filled fd key.
Proof.
  unfold get, filled. destruct (fd !! key) as [v|]; simpl.
  - destruct (String.eqb_spec v ""); simpl; split.
    + discriminate.
    + intros (w & Hw & Hne). congruence.
    + intros _. eauto.
    + reflexivity.
  - split; [discriminate|]. intros (w & Hw & _). discriminate.
Qed.

Lemma get_insert_ne (fd : gmap string string) (k k' v : string) :
  k <> k' -> get (<[k := v]> fd) k' = get fd k'.
Proof. intros Hne. unfold get. rewrite lookup_insert_ne by exact Hne. reflexivity. Qed.

Lemma get_insert_eq (fd : gmap string string) (k v : string) :
  get (<[k := v]> fd) k = JS.Str v.
Proof. unfold get. rewrite lookup_insert_eq. reflexivity. Qed.

(** C3, as the specification has it, fails: with every required field
    filled in and a farm size of -1 the button is enabled, although -1 does
    not parse as a positive number. *)
Lemma submit_enabled_negative_farm_size :
  let s := run Examples.server (Some Examples.farmer) (Examples.fill "-1") in
  formData s !! "farm_size" = Some "-1"
  /\ JS.parseFloat "-1" = JS.Fin (-1 # 1)
  /\ submit_enabled s = true
  /\ spec_submit_enabled s = false.
Proof. vm_compute. repeat split. Qed.

Lemma submit_enabled_unfold (s : form) :
  submit_enabled s = true <->
  loading s = false /\ Forall (filled (formData s)) required_fields.
Proof.
  unfold submit_enabled, submit_disabled, required_fields.
  rewrite !negb_orb, !negb_involutive, !andb_true_iff, !truthy_get,
    negb_true_iff, !Forall_cons, Forall_nil.
  tauto.
Qed.

Lemma submit_disabled_insert_optional (s : form) (key value : string) :
  key ∉ required_fields ->
  submit_disabled (handleInputChange key value s) = submit_disabled s.
Proof.
  unfold required_fields. rewrite !not_elem_of_cons.
  intros (H1 & H2 & H3 & H4 & H5 & H6 & H7 & _).
  unfold submit_disabled, handleInputChange, setFormData; cbn [formData loading].
  rewrite !get_insert_ne by assumption. reflexivity.
Qed.

(** C3, amended.  The submit button is enabled exactly when no submission
    is in flight and each of the seven required fields holds a non-empty
    string; the content of [farm_size] is not inspected beyond that.  While
    a submission is in flight the button is disabled whatever the fields
    hold, and writing any other field, with any value, does not change
    whether it is enabled. *)
Theorem submit_enabled_iff_required_filled (s : form) :
  (submit_enabled s = true <->
   loading s = false /\ Forall (filled (formData s)) required_fields)
  /\ (loading s = true -> submit_enabled s = false)
  /\ (forall key value,
        key ∉ required_fields ->
        submit_enabled (handleInputChange key value s) = submit_enabled s).
Proof.
  split; [apply submit_enabled_unfold|split].
  - intros Hl. unfold submit_enabled, submit_disabled. rewrite Hl. reflexivity.
  - intros key value Hk. unfold submit_enabled.
    rewrite (submit_disabled_insert_optional s key value Hk). reflexivity.
Qed.


(** C9. The request body is built only for a signed-in user and carries
    that user's [id] as [user_id], next to the four groups of fields.  With
    no user, reading [user.id] throws before anything is posted: the
    handler reports the generic failure and sends no request. *)
Theorem requestData_user_id (fd : gmap string string) :
  (forall u, exists body,
      requestData (Some u) fd = Some body
      /\ user_id body = Auth.id u
      /\ state (farm_details body) = get fd "state"
      /\ crop_name (crop_info body) = get fd "crop_name"
      /\ soil_type (soil_inputs body) = get fd "soil_type"
      /\ irrigation_source (irrigation_info body) = get fd "irrigation_source")
  /\ requestData None fd = None
  /\ (forall s u, exists body,
        requestData (Some u) (formData s) = Some body
        /\ user_id body = Auth.id u
        /\ predict_requests (handleSubmit (Some u) s) =
           predict_requests s ++ [body])
  /\ (forall s,
        predict_requests (handleSubmit None s) = predict_requests s
        /\ toasts (handleSubmit None s) =
           toasts s ++
             [ {| title := "Error";
                  description := JS.Str "Failed to generate prediction";
                  destructive := true |} ]
        /\ loading (handleSubmit None s) = false).
Proof.
  split; [|split; [|split]].
  - intros u. eexists. split; [reflexivity|]. repeat split.
  - reflexivity.
  - intros s u. eexists. split; [reflexivity|]. split; reflexivity.
  - intros s. repeat split.
Qed.

(** *** Submission and result *)

Section Workflow.

Variable districts_of : string -> list string.
Variable user : option Auth.User.

(** The effect on [formData.state] only ever issues a district request. *)
Lemma rerender_cells (p : option string) (s : form) :
  formData (rerender p s) = formData s
  /\ districts (rerender p s) = districts s
  /\ loading (rerender p s) = loading s
  /\ prediction (rerender p s) = prediction s
  /\ toasts (rerender p s) = toasts s
  /\ predict_requests (rerender p s) = predict_requests s.
Proof.
  unfold rerender, state_effect, fetchDistricts.
  destruct (decide _); [repeat split|].
  destruct (get _ _) as [| |st|]; try (repeat split; fail).
  destruct (JS.truthy _); repeat split.
Qed.

Lemma rerender_same (s : form) : rerender (formData s !! "state") s = s.
Proof. unfold rerender. rewrite decide_True by reflexivity. reflexivity. Qed.

(** Every event but a change of the form leaves [formData] alone, so the
    effect does not run after it. *)
Lemma step_no_change (s : form) (e : event) :
  formData (handle districts_of user e s) = formData s -> step districts_of user s e = handle districts_of user e s.
Proof.
  intros Hfd. unfold step, rerender.
  rewrite Hfd, decide_True by reflexivity. reflexivity.
Qed.

Lemma handle_formData (s : form) (e : event) :
  (forall field value, e <> Change field value) ->
  formData (handle districts_of user e s) = formData s.
Proof.
  intros Hne. destruct e; cbn [handle];
    try (exfalso; eapply Hne; reflexivity);
    unfold handleSubmit; repeat case_match; reflexivity.
Qed.

Lemma submission_inv_handle (s : form) (e : event) :
  submission_inv s -> submission_inv (handle districts_of user e s).
Proof.
  unfold submission_inv.
  intros [(Hl & Hp & b & Hb)|(Hl & Hb)];
    destruct e; cbn [handle];
    unfold submit_disabled, handleSubmit, handleInputChange;
    rewrite ?Hl, ?Hp, ?Hb; cbn;
    repeat case_match;
    cbn; rewrite ?Hl, ?Hp, ?Hb; eauto 6; try discriminate.
Qed.

Lemma submission_inv_step (s : form) (e : event) :
  submission_inv s -> submission_inv (step districts_of user s e).
Proof.
  intros H. apply (submission_inv_handle s e) in H.
  unfold step. destruct (rerender_cells (formData s !! "state") (handle districts_of user e s))
    as (_ & _ & Hl & Hp & _ & Hr).
  unfold submission_inv in *. rewrite Hl, Hp, Hr. exact H.
Qed.

Lemma submission_inv_foldl (es : list event) (s : form) :
  submission_inv s -> submission_inv (foldl (step districts_of user) s es).
Proof.
  revert s. induction es as [|e es IH]; intros s Hs; [exact Hs|].
  cbn [foldl]. apply IH, submission_inv_step, Hs.
Qed.

Lemma submission_inv_run (es : list event) : submission_inv (run districts_of user es).
Proof. apply submission_inv_foldl. right. split; reflexivity. Qed.

Lemma stage_Result (s : form) :
  stage s = Result <-> exists r, prediction s = Some r.
Proof.
  unfold stage. destruct (prediction s) as [r|].
  - split; eauto.
  - destruct (loading s); split; try discriminate; intros [r Hr]; discriminate.
Qed.

(** C5, amended.  In the result view the only event that leaves it is the
    "Make Another Prediction" button.  It discards the prediction and the
    form is shown again, in stage Editing, with [formData] and the district
    list exactly as they were while the result was shown: the values
    entered before are still in the fields and nothing is blanked. *)
Theorem make_another_prediction (es : list event) :
  let s := run districts_of user es in
  stage s = Result ->
  let s' := step districts_of user s MakeAnother in
  stage s' = Editing
  /\ prediction s' = None
  /\ formData s' = formData s
  /\ districts s' = districts s
  /\ (forall e, stage (step districts_of user s e) <> Result -> e = MakeAnother).
Proof.
  intros s Hstage s'.
  apply stage_Result in Hstage as [r Hr].
  destruct (submission_inv_run es) as [(_ & Hnone & _)|(Hl & Hq)];
    fold s in Hnone || fold s in Hl, Hq; [congruence|].
  assert (Hs' : s' = setPrediction None s).
  { subst s'. rewrite step_no_change; cbn [handle]; rewrite Hr; reflexivity. }
  rewrite Hs'. unfold stage; cbn. rewrite Hl. repeat split.
  intros e He. destruct e; try reflexivity; exfalso; apply He;
    apply stage_Result; exists r.
  - rewrite step_no_change; cbn [handle]; rewrite Hr; auto.
  - rewrite step_no_change; cbn [handle]; rewrite Hr; auto.
  - rewrite step_no_change; cbn [handle];
      destruct (district_requests s !! i); auto.
  - rewrite step_no_change; cbn [handle];
      destruct (district_requests s !! i); auto.
  - rewrite step_no_change; cbn [handle]; rewrite Hq; auto.
  - rewrite step_no_change; cbn [handle]; rewrite Hq; auto.
Qed.

(** While a submission is in flight, an event that does not settle it
    leaves it in flight: the form may be edited and district answers may
    arrive, but nothing is submitted again and nothing is shown. *)
Lemma submitting_step (s : form) (e : event) (body : request) :
  Invariants.settles e = false ->
  loading s = true -> prediction s = None -> predict_requests s = [body] ->
  let s' := step districts_of user s e in
  loading s' = true /\ prediction s' = None /\ predict_requests s' = [body].
Proof.
  intros He Hl Hp Hq s'. subst s'. unfold step.
  destruct (rerender_cells (formData s !! "state")
              (handle districts_of user e s)) as (_ & _ & -> & -> & _ & ->).
  destruct e; try discriminate He; cbn [handle];
    unfold submit_disabled; rewrite ?Hp, ?Hl; cbn;
    repeat case_match; cbn; auto.
Qed.

Lemma submitting_foldl (mid : list event) (s : form) (body : request) :
  forallb (fun e => negb (Invariants.settles e)) mid = true ->
  loading s = true -> prediction s = None -> predict_requests s = [body] ->
  let s' := foldl (step districts_of user) s mid in
  loading s' = true /\ prediction s' = None /\ predict_requests s' = [body].
Proof.
  revert s. induction mid as [|e mid IH]; intros s Hmid Hl Hp Hq; [auto|].
  cbn in Hmid. apply andb_true_iff in Hmid as [He Hmid].
  apply negb_true_iff in He.
  destruct (submitting_step s e body He Hl Hp Hq) as (Hl' & Hp' & Hq').
  cbn [foldl]. apply IH; assumption.
Qed.

(** C6.  From a form in stage Editing whose submit button is enabled, a
    signed-in user's submission puts exactly one request in flight and the
    stage is Submitting, and it stays so, with that request in flight,
    whatever the user types and whichever district answers arrive before
    the request settles.  When the request then succeeds the stage is
    Result and the component holds the returned prediction.  When it fails
    the stage is Editing again and every cell is as it was when the failure
    arrived, the form data as the user left them, but for [loading] and
    for one more notification, titled "Error", whose description is the
    detail of the failure, or "Failed to generate prediction" when there is
    none.  A failure right after the submission gives back the very state
    that was submitted.  In any state whatever, the failure of a submission
    changes neither the form data nor the district list nor the
    prediction. *)
Theorem submission_outcome (u : Auth.User) (es mid : list event) :
  user = Some u ->
  let s := run districts_of user es in
  stage s = Editing ->
  submit_enabled s = true ->
  forallb (fun e => negb (Invariants.settles e)) mid = true ->
  let s1 := step districts_of user s Submit in
  let sm := foldl (step districts_of user) s1 mid in
  (stage s1 = Submitting
   /\ formData s1 = formData s
   /\ exists body,
       requestData (Some u) (formData s) = Some body
       /\ predict_requests s1 = [body]
       /\ predict_requests sm = [body])
  /\ stage sm = Submitting
  /\ (forall r,
        let s2 := step districts_of user sm (PredictOk r) in
        stage s2 = Result /\ prediction s2 = Some r
        /\ loading s2 = false /\ predict_requests s2 = []
        /\ formData s2 = formData sm /\ districts s2 = districts sm)
  /\ (forall err,
        let s3 := step districts_of user sm (PredictFail err) in
        stage s3 = Editing
        /\ s3 =
           {| formData := formData sm;
              districts := districts sm;
              loading := false;
              prediction := None;
              toasts :=
                toasts sm ++
                  [ {| title := "Error";
                       description :=
                         if JS.truthy (detail err) then detail err
                         else JS.Str "Failed to generate prediction";
                       destructive := true |} ];
              district_requests := district_requests sm;
              predict_requests := [] |})
  /\ (forall err,
        step districts_of user s1 (PredictFail err) =
          {| formData := formData s;
             districts := districts s;
             loading := loading s;
             prediction := prediction s;
             toasts :=
               toasts s ++
                 [ {| title := "Error";
                      description :=
                        if JS.truthy (detail err) then detail err
                        else JS.Str "Failed to generate prediction";
                      destructive := true |} ];
             district_requests := district_requests s;
             predict_requests := predict_requests s |})
  /\ (forall s' err,
        let s3 := step districts_of user s' (PredictFail err) in
        formData s3 = formData s' /\ districts s3 = districts s'
        /\ prediction s3 = prediction s').
Proof.
  intros Hu s Hstage Hen Hmid s1 sm.
  assert (Hp : prediction s = None).
  { unfold stage in Hstage. destruct (prediction s); [discriminate|reflexivity]. }
  assert (Hl : loading s = false).
  { unfold stage in Hstage. rewrite Hp in Hstage.
    destruct (loading s); [discriminate|reflexivity]. }
  assert (Hq : predict_requests s = []).
  { destruct (submission_inv_run es) as [(Hl' & _)|(_ & Hq)];
      fold s in Hl' || fold s in Hq; [congruence|exact Hq]. }
  assert (Hd : submit_disabled s = false).
  { unfold submit_enabled in Hen. destruct (submit_disabled s);
      [discriminate|reflexivity]. }
  destruct (requestData (Some u) (formData s)) as [body|] eqn:Hb;
    [|discriminate].
  assert (Hs1 : s1 = set_predict_requests [body] (setLoading true s)).
  { subst s1. rewrite step_no_change; cbn [handle]; rewrite Hp, Hd.
    - unfold handleSubmit. rewrite Hu. cbn [setLoading formData].
      rewrite Hb. cbn. rewrite Hq. reflexivity.
    - unfold handleSubmit. rewrite Hu. reflexivity. }
  assert (Hsm : loading sm = true /\ prediction sm = None
                /\ predict_requests sm = [body]).
  { subst sm. apply submitting_foldl; rewrite ?Hs1; auto. }
  destruct Hsm as (Hlm & Hpm & Hqm). clearbody sm.
  split; [|split; [|split; [|split; [|split]]]].
  - rewrite Hs1. unfold stage; cbn. rewrite Hp. repeat split.
    exists body. repeat split. exact Hqm.
  - unfold stage. rewrite Hpm, Hlm. reflexivity.
  - intros r s2. subst s2.
    rewrite step_no_change by (apply handle_formData; discriminate).
    cbn [handle]. rewrite Hqm. unfold stage; cbn. repeat split.
  - intros err s3. subst s3.
    rewrite step_no_change by (apply handle_formData; discriminate).
    cbn [handle]. rewrite Hqm. unfold stage; cbn. rewrite Hpm.
    split; [reflexivity|].
    unfold handleSubmit_catch, toast, setLoading, set_predict_requests,
      error_toast, generic_failure, JS.or_else.
    cbn. rewrite Hpm. reflexivity.
  - intros err. rewrite Hs1.
    rewrite step_no_change by reflexivity. cbn [handle].
    unfold handleSubmit_catch, toast, setLoading, set_predict_requests,
      error_toast, generic_failure, JS.or_else.
    cbn. rewrite Hl, Hp, Hq. reflexivity.
  - intros s' err s3. subst s3.
    rewrite step_no_change by (apply handle_formData; discriminate).
    cbn [handle]. destruct (predict_requests s'); repeat split.
Qed.

End Workflow.

Lemma make_another_prediction_witness :
  let s := run Examples.server (Some Examples.farmer)
             (Examples.predicted Examples.a_result) in
  stage s = Result
  /\ (let s' := step Examples.server (Some Examples.farmer) s MakeAnother in
      stage s' = Editing
      /\ prediction s' = None
      /\ formData s' = formData s
      /\ districts s' = districts s
      /\ (forall e,
            stage (step Examples.server (Some Examples.farmer) s e) <> Result ->
            e = MakeAnother)).
Proof.
  split.
  - vm_compute. reflexivity.
  - apply (make_another_prediction Examples.server (Some Examples.farmer)
             (Examples.predicted Examples.a_result)).
    vm_compute. reflexivity.
Defined.

(** C5, as the specification has it, fails: after a prediction for a form
    filled in with Odisha, Rice, 2.5 and so on, "Make Another Prediction"
    shows the form with those values still in it, not a blank form. *)
Lemma make_another_keeps_form_values :
  let s := run Examples.server (Some Examples.farmer)
             (Examples.predicted Examples.a_result) in
  let s' := step Examples.server (Some Examples.farmer) s MakeAnother in
  stage s = Result
  /\ stage s' = Editing
  /\ formData s' !! "state" = Some "Odisha"
  /\ formData s' !! "crop_name" = Some "Rice"
  /\ formData s' !! "farm_size" = Some "2.5"
  /\ formData s' <> formData init.
Proof.
  repeat split; try (vm_compute; reflexivity).
  intros H. apply (f_equal (fun fd => fd !! "state")) in H.
  vm_compute in H. discriminate.
Qed.

Lemma submission_outcome_witness :
  let s := run Examples.server (Some Examples.farmer) (Examples.fill "2.5") in
  let mid := [Change "village" "Konark"; Change "state" "Bihar"; DistrictsOk 0] in
  let sm :=
    foldl (step Examples.server (Some Examples.farmer))
      (step Examples.server (Some Examples.farmer) s Submit) mid in
  (stage s = Editing /\ submit_enabled s = true
   /\ forallb (fun e => negb (Invariants.settles e)) mid = true)
  /\ stage sm = Submitting
  /\ formData sm !! "village" = Some "Konark"
  /\ (forall r,
        let s2 := step Examples.server (Some Examples.farmer) sm (PredictOk r) in
        stage s2 = Result /\ prediction s2 = Some r
        /\ loading s2 = false /\ predict_requests s2 = []
        /\ formData s2 = formData sm /\ districts s2 = districts sm)
  /\ (forall err,
        let s3 := step Examples.server (Some Examples.farmer) sm
                    (PredictFail err) in
        stage s3 = Editing
        /\ s3 =
           {| formData := formData sm;
              districts := districts sm;
              loading := false;
              prediction := None;
              toasts :=
                toasts sm ++
                  [ {| title := "Error";
                       description :=
                         if JS.truthy (detail err) then detail err
                         else JS.Str "Failed to generate prediction";
                       destructive := true |} ];
              district_requests := district_requests sm;
              predict_requests := [] |}).
Proof.
  cbv zeta.
  split; [repeat split; vm_compute; reflexivity|].
  pose proof (submission_outcome Examples.server (Some Examples.farmer)
                Examples.farmer (Examples.fill "2.5")
                [Change "village" "Konark"; Change "state" "Bihar";
                 DistrictsOk 0]) as H.
  cbv zeta in H.
  destruct H as (_ & Hstage & Hok & Hfail & _);
    [ reflexivity | vm_compute; reflexivity | vm_compute; reflexivity
    | vm_compute; reflexivity | ].
  split; [exact Hstage|]. split; [vm_compute; reflexivity|].
  split; [exact Hok|exact Hfail].
Defined.

(** *** The district list *)

Section Districts.

Variable districts_of : string -> list string.
Variable user : option Auth.User.

Lemma step_Change_state (s : form) (value : string) :
  prediction s = None ->
  step districts_of user s (Change "state" value) =
  rerender (formData s !! "state") (handleInputChange "state" value s).
Proof. intros Hp. unfold step. cbn [handle]. rewrite Hp. reflexivity. Qed.

Lemma formData_handleInputChange (s : form) (field value : string) :
  formData (handleInputChange field value s) = <[field := value]> (formData s).
Proof. reflexivity. Qed.

Lemma state_effect_insert (s : form) (value : string) :
  state_effect (handleInputChange "state" value s) =
  if decide (value = "") then handleInputChange "state" value s
  else fetchDistricts value (handleInputChange "state" value s).
Proof.
  unfold state_effect, handleInputChange, setFormData; cbn [formData].
  rewrite get_insert_eq. cbn [JS.truthy].
  destruct (String.eqb_spec value ""); cbn [negb].
  - rewrite decide_True by assumption. reflexivity.
  - rewrite decide_False by assumption. reflexivity.
Qed.

(** C2, amended.  Choosing a state writes the [state] field and nothing
    else: every other field, the selected district among them, keeps its
    value, and the district list stays as it is.  A district request for the
    new state is issued when the value differs from the previous one and is
    not empty; when the state becomes empty nothing is requested and
    nothing is cleared. *)
Theorem state_change_keeps_district (s : form) (value : string) :
  prediction s = None ->
  let s' := step districts_of user s (Change "state" value) in
  formData s' = <["state" := value]> (formData s)
  /\ (forall key, key <> "state" -> formData s' !! key = formData s !! key)
  /\ districts s' = districts s
  /\ district_requests s' =
     if decide (formData s !! "state" = Some value) then district_requests s
     else if decide (value = "") then district_requests s
     else district_requests s ++ [value].
Proof.
  intros Hp s'. subst s'. rewrite (step_Change_state s value Hp).
  destruct (rerender_cells (formData s !! "state")
              (handleInputChange "state" value s)) as (Hfd & Hds & _).
  rewrite Hfd, Hds. split; [reflexivity|]. split; [|split; [reflexivity|]].
  - intros key Hk. cbn. rewrite lookup_insert_ne by congruence. reflexivity.
  - unfold rerender. rewrite formData_handleInputChange, lookup_insert_eq.
    destruct (decide (Some value = formData s !! "state")) as [He|Hne].
    + rewrite decide_True by congruence. reflexivity.
    + rewrite decide_False by congruence.
      rewrite state_effect_insert.
      destruct (decide (value = "")); reflexivity.
Qed.

Lemma districts_inv_step (s : form) (e : event) :
  in_order e = true ->
  districts_inv districts_of s ->
  districts_inv districts_of (step districts_of user s e).
Proof.
  intros Hord Hinv.
  destruct e as [field value| | |i|i|r|err]; try discriminate Hord.
  - (* a change of the form *)
    unfold step. cbn [handle].
    destruct (prediction s); [rewrite rerender_same; exact Hinv|].
    destruct (_ && _); [rewrite rerender_same; exact Hinv|].
    unfold rerender. rewrite formData_handleInputChange.
    destruct (decide (field = "state")) as [->|Hf].
    + rewrite lookup_insert_eq.
      destruct (decide (Some value = formData s !! "state")) as [He|Hne].
      * intros st Hst Hne. cbn in Hst |- *.
        rewrite lookup_insert_eq in Hst. apply Hinv; congruence.
      * rewrite state_effect_insert.
        intros st Hst Hne'. destruct (decide (value = "")) as [->|Hv];
          cbn in Hst |- *; rewrite lookup_insert_eq in Hst.
        -- congruence.
        -- rewrite last_snoc. congruence.
    + rewrite lookup_insert_ne by exact Hf.
      rewrite decide_True by reflexivity.
      intros st Hst Hne. cbn in Hst |- *.
      rewrite lookup_insert_ne in Hst by exact Hf. apply Hinv; assumption.
  - rewrite step_no_change by (apply handle_formData; discriminate).
    cbn [handle]. destruct (prediction s); [exact Hinv|].
    destruct (submit_disabled s); [exact Hinv|].
    unfold handleSubmit. destruct (requestData _ _); exact Hinv.
  - rewrite step_no_change by (apply handle_formData; discriminate).
    cbn [handle]. destruct (prediction s); exact Hinv.
  - (* the oldest district request is answered *)
    cbn in Hord. apply Nat.eqb_eq in Hord as ->.
    rewrite step_no_change by (apply handle_formData; discriminate).
    cbn [handle]. destruct (district_requests s) as [|st0 rest] eqn:Hq;
      [exact Hinv|].
    cbn. intros st Hst Hne. cbn. specialize (Hinv st Hst Hne).
    rewrite Hq in Hinv. destruct rest as [|st1 rest]; cbn in *.
    + congruence.
    + destruct (last (st1 :: rest)) as [st'|] eqn:Hlast; [exact Hinv|].
      apply last_None in Hlast. discriminate.
  - rewrite step_no_change by (apply handle_formData; discriminate).
    cbn [handle]. destruct (predict_requests s); exact Hinv.
  - rewrite step_no_change by (apply handle_formData; discriminate).
    cbn [handle]. destruct (predict_requests s); exact Hinv.
Qed.

Lemma districts_inv_foldl (es : list event) (s : form) :
  forallb in_order es = true ->
  districts_inv districts_of s ->
  districts_inv districts_of (foldl (step districts_of user) s es).
Proof.
  revert s. induction es as [|e es IH]; intros s Hord Hs; [exact Hs|].
  cbn in Hord. apply andb_true_iff in Hord as [He Hes].
  cbn [foldl]. apply IH; [exact Hes|]. apply districts_inv_step; assumption.
Qed.

(** C1, amended.  A district response is applied whenever it arrives, with
    no look at the state selected by then: the answer to any request in
    flight, when it comes, replaces the list with the districts of the state
    that request was issued for.  So the last response to arrive wins.  When
    every request is answered successfully and in the order of issue, the
    list shown once nothing is in flight is that of the state selected
    last. *)
Theorem district_last_response_wins :
  (forall s i st,
      district_requests s !! i = Some st ->
      let s' := step districts_of user s (DistrictsOk i) in
      districts s' = districts_of st
      /\ formData s' = formData s
      /\ district_requests s' = delete i (district_requests s))
  /\ (forall es,
        forallb in_order es = true ->
        let s := run districts_of user es in
        district_requests s = [] ->
        forall st,
          formData s !! "state" = Some st -> st <> "" ->
          districts s = districts_of st).
Proof.
  split.
  - intros s i st Hi s'. subst s'.
    rewrite step_no_change by (apply handle_formData; discriminate).
    cbn [handle]. rewrite Hi. repeat split.
  - intros es Hord s Hq st Hst Hne.
    assert (Hinv : districts_inv districts_of s).
    { apply districts_inv_foldl; [exact Hord|].
      intros st' Hst'. vm_compute in Hst'. congruence. }
    specialize (Hinv st Hst Hne). rewrite Hq in Hinv. exact Hinv.
Qed.

End Districts.

Lemma state_change_keeps_district_witness :
  let s := run Examples.server (Some Examples.farmer)
             [Change "state" "Odisha"; DistrictsOk 0; Change "district" "Puri"] in
  prediction s = None
  /\ (let s' := step Examples.server (Some Examples.farmer) s
                  (Change "state" "Bihar") in
      formData s' = <["state" := "Bihar"]> (formData s)
      /\ (forall key, key <> "state" -> formData s' !! key = formData s !! key)
      /\ districts s' = districts s
      /\ district_requests s' =
         if decide (formData s !! "state" = Some "Bihar")
         then district_requests s
         else if decide ("Bihar" = "") then district_requests s
         else district_requests s ++ ["Bihar"]).
Proof.
  split.
  - vm_compute. reflexivity.
  - apply (state_change_keeps_district Examples.server (Some Examples.farmer)).
    vm_compute. reflexivity.
Defined.

(** C2, as the specification has it, fails: with Odisha and its district
    Puri selected, emptying the state, or choosing Bihar, leaves Puri
    selected and Odisha's districts in the list. *)
Lemma state_change_keeps_stale_district :
  let s := run Examples.server (Some Examples.farmer)
             [Change "state" "Odisha"; DistrictsOk 0; Change "district" "Puri"] in
  let s1 := step Examples.server (Some Examples.farmer) s (Change "state" "") in
  let s2 := step Examples.server (Some Examples.farmer) s
              (Change "state" "Bihar") in
  (formData s1 !! "state" = Some ""
   /\ formData s1 !! "district" = Some "Puri"
   /\ districts s1 = ["Puri"; "Cuttack"]
   /\ district_requests s1 = [])
  /\ (formData s2 !! "state" = Some "Bihar"
      /\ formData s2 !! "district" = Some "Puri"
      /\ districts s2 = ["Puri"; "Cuttack"]).
Proof. vm_compute. repeat split. Qed.

(** C1, as the specification has it, fails: Odisha is selected, then Bihar
    before Odisha's districts arrive; Bihar's answer arrives first and
    Odisha's after it.  With nothing left in flight the form shows Bihar as
    the state and Odisha's districts. *)
Lemma stale_district_response_applied :
  let s := run Examples.server (Some Examples.farmer)
             [ Change "state" "Odisha"; Change "state" "Bihar";
               DistrictsOk 1; DistrictsOk 0 ] in
  formData s !! "state" = Some "Bihar"
  /\ district_requests s = []
  /\ districts s = Examples.server "Odisha"
  /\ districts s <> Examples.server "Bihar".
Proof.
  repeat split; try (vm_compute; reflexivity).
  vm_compute. discriminate.
Qed.

Lemma district_last_response_wins_witness :
  let s := run Examples.server (Some Examples.farmer)
             [ Change "state" "Odisha"; Change "state" "Bihar";
               DistrictsOk 0; DistrictsOk 0 ] in
  districts s = Examples.server "Bihar".
Proof.
  apply (proj2 (district_last_response_wins Examples.server
                  (Some Examples.farmer))
           [ Change "state" "Odisha"; Change "state" "Bihar";
             DistrictsOk 0; DistrictsOk 0 ]).
  - vm_compute. reflexivity.
  - vm_compute. reflexivity.
  - vm_compute. reflexivity.
  - discriminate.
Defined.

End PredictFacts.

(** ** The chat transcript *)

Module ChatFacts.
Import Chat.

Lemma rejected_noop (s : chat) (e : event) :
  rejected s e = true -> step s e = s.
Proof.
  destruct e; try discriminate; cbn [rejected step]; intros Hr.
  - rewrite Hr. reflexivity.
  - unfold sendMessage. destruct (loading s); [reflexivity|].
    cbn in Hr. rewrite Hr. reflexivity.
Qed.

Lemma chat_inv_step (s : chat) (e : event) : chat_inv s -> chat_inv (step s e).
Proof.
  unfold chat_inv.
  intros [(Hl & sent & Hq)|(Hl & Hq)]; destruct e; cbn [step];
    unfold sendMessage; rewrite ?Hl, ?Hq; cbn;
    repeat case_match; cbn; rewrite ?Hl, ?Hq; eauto.
Qed.

Lemma chat_inv_run (es : list event) (s : chat) :
  chat_inv s -> chat_inv (run s es).
Proof.
  revert s. induction es as [|e es IH]; intros s Hs; [exact Hs|].
  apply IH, chat_inv_step, Hs.
Qed.

Lemma chat_inv_init : chat_inv init.
Proof. right. split; reflexivity. Qed.

(** What one event adds to the transcript. *)
Lemma messages_step (s : chat) (e : event) :
  exists added,
    messages (step s e) = messages s ++ added
    /\ List.length (filter (fun m => type m = user) added) =
       (if accepted s e then 1 else 0)
    /\ List.length (filter (fun m => type m = bot) added) =
       (if succeeded s e then 1 else 0).
Proof.
  destruct e; cbn [step accepted succeeded].
  - exists []. destruct (loading s); rewrite app_nil_r; repeat split.
  - exists []. destruct (quick_questions !! i); rewrite app_nil_r; repeat split.
  - exists []. rewrite app_nil_r. repeat split.
  - unfold sendMessage. destruct (loading s); cbn;
      [exists []; rewrite app_nil_r; repeat split|].
    destruct (blank (newMessage s)); cbn;
      [exists []; rewrite app_nil_r; repeat split|].
    eexists [_]. repeat split.
  - unfold sendMessage. destruct (loading s); cbn;
      [exists []; rewrite app_nil_r; repeat split|].
    destruct (blank (newMessage s)); cbn;
      [exists []; rewrite app_nil_r; repeat split|].
    eexists [_]. repeat split.
  - destruct (requests s) as [|sent rest];
      [exists []; rewrite app_nil_r; repeat split|].
    eexists [_]. repeat split.
  - destruct (requests s) as [|sent rest];
      exists []; rewrite app_nil_r; repeat split.
Qed.

Lemma turns_run (es : list event) (s : chat) :
  user_turns (run s es) = user_turns s + count accepted s es
  /\ bot_turns (run s es) = bot_turns s + count succeeded s es.
Proof.
  revert s. induction es as [|e es IH]; intros s.
  - cbn. split; lia.
  - cbn [run foldl count]. fold (run (step s e) es).
    destruct (IH (step s e)) as [Hu Hb]. rewrite Hu, Hb.
    destruct (messages_step s e) as (added & Hm & Hau & Hab).
    unfold user_turns, bot_turns. rewrite Hm, !filter_app, !length_app.
    rewrite Hau, Hab. split; lia.
Qed.

Lemma length_turns (l : list Message) :
  List.length l =
  List.length (filter (fun m => type m = user) l)
  + List.length (filter (fun m => type m = bot) l).
Proof.
  induction l as [|m l IH]; [reflexivity|].
  rewrite !filter_cons. destruct m as [[] c lang recs]; cbn [type];
    repeat (case_decide; try congruence); cbn [List.length]; lia.
Qed.

(** C8, as the specification has it, fails: the transcript starts with the
    assistant's greeting, so before any send, and after a rejected one, it
    has one turn although no send was accepted and no response received. *)
Lemma transcript_starts_with_greeting :
  let es := [ClickSend; Type_ "   "; PressEnter] in
  count accepted init es = 0
  /\ count succeeded init es = 0
  /\ count rejected init es = 2
  /\ List.length (messages (run init es)) = 1
  /\ List.length (messages (run init es))
     <> count accepted init es + count succeeded init es.
Proof. vm_compute. repeat split. discriminate. Qed.

(** C8, amended.  A send is a no-op when the pending text is empty or all
    white space, and when a request is outstanding, which is exactly while
    [loading].  After any sequence of events from the initial chat the
    transcript holds the greeting, one user turn per accepted send and one
    assistant turn per successful response: its length is one more than the
    number of accepted sends plus the number of successful responses.  A
    failed response leaves the transcript as it is, the user's turn
    included. *)
Theorem transcript_length (es : list event) :
  let s := run init es in
  (forall e, rejected s e = true -> step s e = s)
  /\ (requests s <> [] -> step s ClickSend = s /\ step s PressEnter = s)
  /\ (blank (newMessage s) = true ->
      step s ClickSend = s /\ step s PressEnter = s)
  /\ user_turns s = count accepted init es
  /\ bot_turns s = 1 + count succeeded init es
  /\ List.length (messages s) =
     1 + count accepted init es + count succeeded init es
  /\ (forall e, failed s e = true -> messages (step s e) = messages s).
Proof.
  intros s. split; [intros e; apply rejected_noop|].
  split; [|split; [|split; [|split; [|split]]]].
  - intros Hq.
    assert (Hl : loading s = true).
    { destruct (chat_inv_run es init chat_inv_init) as [(Hl & _)|(_ & Hq')];
        fold s in Hl || fold s in Hq'; [exact Hl|contradiction]. }
    split; apply rejected_noop; cbn; rewrite Hl; reflexivity.
  - intros Hb. split; apply rejected_noop; cbn; rewrite Hb;
      apply orb_true_r.
  - subst s. destruct (turns_run es init) as [Hu _]. rewrite Hu. reflexivity.
  - subst s. destruct (turns_run es init) as [_ Hb]. rewrite Hb. reflexivity.
  - subst s. rewrite length_turns.
    change (user_turns (run init es) + bot_turns (run init es) =
            1 + count accepted init es + count succeeded init es).
    destruct (turns_run es init) as [Hu Hb]. rewrite Hu, Hb.
    change (user_turns init) with 0. change (bot_turns init) with 1. lia.
  - intros e He. destruct e; try discriminate. cbn in He |- *.
    destruct (requests s); [discriminate|reflexivity].
Qed.

(** C10.  When the request of a send settles, the pending input is set to
    the empty string, on a response and on a failure alike; issuing the
    request does not clear it, so the text of a failed message is gone from
    the input once the failure is reported. *)
Theorem input_cleared_when_request_settles :
  (forall s sent rest,
      requests s = sent :: rest ->
      (forall response recs, newMessage (step s (ChatOk response recs)) = "")
      /\ newMessage (step s ChatFail) = "")
  /\ (forall s e,
        accepted s e = true ->
        let s1 := step s e in
        newMessage s1 = newMessage s
        /\ requests s1 =
           requests s ++ [ {| message := newMessage s;
                             payload_language := selectedLanguage s |} ]
        /\ (forall response recs,
              newMessage (step s1 (ChatOk response recs)) = "")
        /\ newMessage (step s1 ChatFail) = "").
Proof.
  assert (Hsettle : forall s sent rest,
             requests s = sent :: rest ->
             (forall response recs,
                 newMessage (step s (ChatOk response recs)) = "")
             /\ newMessage (step s ChatFail) = "").
  { intros s sent rest Hq. split; [intros response recs|];
      cbn [step]; rewrite Hq; reflexivity. }
  split; [exact Hsettle|].
  intros s e Ha s1.
  assert (Hs1 : s1 = sendMessage s /\ blank (newMessage s) = false).
  { subst s1. destruct e; try discriminate; cbn in Ha |- *;
      apply andb_true_iff in Ha as [Hl Hb];
      apply negb_true_iff in Hl, Hb; rewrite Hl, ?Hb; auto. }
  destruct Hs1 as [-> Hb]. unfold sendMessage. rewrite Hb.
  split; [reflexivity|]. split; [reflexivity|].
  destruct (requests s) as [|p q] eqn:Hq.
  - eapply Hsettle. cbn. rewrite Hq. reflexivity.
  - eapply Hsettle. cbn. rewrite Hq. reflexivity.
Qed.

Lemma input_cleared_when_request_settles_witness :
  let s := run init [Type_ "When to sow rice?"; ClickSend; Quick 1; ChatFail] in
  newMessage s = ""
  /\ messages s =
     [ greeting;
       {| type := user; content := "When to sow rice?"; language := "en";
          recommendations := None |} ].
Proof.
  split; [|vm_compute; reflexivity].
  apply (proj1 input_cleared_when_request_settles
           (run init [Type_ "When to sow rice?"; ClickSend; Quick 1])
           {| message := "When to sow rice?"; payload_language := "en" |} []).
  vm_compute. reflexivity.
Defined.

End ChatFacts.

(** ** More on the session *)

Module SessionFacts.
Import Auth.

Lemma truthy_Str_empty (t : string) : JS.truthy (JS.Str t) = false -> t = "".
Proof.
  simpl. destruct (String.eqb_spec t ""); [auto|discriminate].
Qed.

Lemma credential_inv_token_effect (s : state) :
  localStorage_token s = token s ->
  (token s = None -> authorization s = None) ->
  Invariants.credential_inv (token_effect s).
Proof.
  intros Hst Hnone. unfold Invariants.credential_inv, token_effect.
  destruct (token s) as [t|] eqn:Ht.
  - destruct (JS.truthy (JS.Str t)) eqn:Htr; cbn; rewrite ?Ht.
    + repeat split; try congruence.
    + apply truthy_Str_empty in Htr. subst t.
      repeat split; congruence.
  - cbn. rewrite ?Ht. repeat split; try congruence; auto.
Qed.

Lemma credential_inv_step (s : state) (e : event) :
  Invariants.credential_inv s -> Invariants.credential_inv (step s e).
Proof.
  intros (Hst & Hnone & Hsome). unfold step, rerender.
  destruct (decide (token (handle e s) = token s)) as [Heq|Hne].
  - destruct e; cbn [handle] in *; try destruct (me_requests s);
      try (split; [exact Hst|split; [exact Hnone|exact Hsome]]);
      unfold Invariants.credential_inv; cbn in *;
      rewrite <- ?Heq in *; repeat split; try congruence;
      try (intros t' [= <-]; reflexivity); auto.
  - apply credential_inv_token_effect;
      destruct e; cbn [handle] in *; try destruct (me_requests s);
      cbn in *; try congruence; auto.
Qed.

Lemma credential_inv_start (persisted : option string) :
  Invariants.credential_inv (start persisted).
Proof.
  apply credential_inv_token_effect; [reflexivity|]. cbn. reflexivity.
Qed.

(** X1.  Whatever was persisted and whatever happens, the token cell and
    the persisted credential are the same value; without a token there is
    no Authorization header, and with a non-empty token the header is
    "Bearer " followed by exactly that token. *)
Theorem credential_cells_agree (persisted : option string) (es : list event) :
  let s := run persisted es in
  localStorage_token s = token s
  /\ (token s = None -> authorization s = None)
  /\ (forall t, token s = Some t -> t <> "" ->
        authorization s = Some ("Bearer " ++ t)%string).
Proof.
  intros s. subst s. unfold run.
  generalize (credential_inv_start persisted).
  generalize (start persisted) as s.
  induction es as [|e es IH]; intros s Hs; [exact Hs|].
  cbn [foldl]. apply IH, credential_inv_step, Hs.
Qed.

Lemma step_login_then (s : state) (t : string) :
  t <> "" -> token s <> Some t ->
  step s (LoginOk t) =
    {| user := user s; token := Some t; loading := loading s;
       localStorage_token := Some t; authorization := Some (bearer t);
       me_requests := S (me_requests s) |}.
Proof.
  intros Ht Hne. unfold step, rerender. cbn [handle login_then token].
  rewrite decide_False by congruence.
  unfold token_effect, login_then. cbn [token].
  rewrite (AuthFacts.truthy_Str_nonempty t Ht). reflexivity.
Qed.

(** X2.  A successful login or registration with a new, non-empty token
    stores the token in the cell, in storage and in the header and issues
    one profile request, but it changes neither the user nor the screen:
    the application is shown only once the profile arrives, and when the
    profile request fails the token just stored is removed again. *)
Theorem login_signs_in_through_profile (s : state) (t : string) :
  t <> "" ->
  token s <> Some t ->
  let s1 := step s (LoginOk t) in
  step s (RegisterOk t) = s1
  /\ user s1 = user s /\ view s1 = view s
  /\ token s1 = Some t /\ localStorage_token s1 = Some t
  /\ authorization s1 = Some ("Bearer " ++ t)%string
  /\ me_requests s1 = S (me_requests s)
  /\ (forall profile,
        let s2 := step s1 (MeOk profile) in
        user s2 = Some profile /\ view s2 = AppScreen /\ token s2 = Some t)
  /\ (let s3 := step s1 MeFail in
      user s3 = user s /\ token s3 = None /\ localStorage_token s3 = None
      /\ authorization s3 = None).
Proof.
  intros Ht Hne s1. subst s1. rewrite (step_login_then s t Ht Hne).
  split; [exact (step_login_then s t Ht Hne)|].
  repeat split; unfold step, rerender; cbn;
    rewrite ?decide_True by reflexivity;
    rewrite ?decide_False by discriminate; reflexivity.
Qed.

Lemma login_signs_in_through_profile_witness :
  let s := start None in
  let s1 := step s (LoginOk "tok") in
  view s = LoginScreen
  /\ (step s (RegisterOk "tok") = s1
      /\ user s1 = user s /\ view s1 = view s
      /\ token s1 = Some "tok" /\ localStorage_token s1 = Some "tok"
      /\ authorization s1 = Some "Bearer tok"
      /\ me_requests s1 = S (me_requests s)
      /\ (forall profile,
            let s2 := step s1 (MeOk profile) in
            user s2 = Some profile /\ view s2 = AppScreen
            /\ token s2 = Some "tok")
      /\ (let s3 := step s1 MeFail in
          user s3 = user s /\ token s3 = None /\ localStorage_token s3 = None
          /\ authorization s3 = None)).
Proof.
  split; [reflexivity|].
  apply (login_signs_in_through_profile (start None) "tok"); discriminate.
Defined.

(** X3.  The continuation of [fetchUser] does not look at the token: when
    a profile request is in flight at the moment of a logout and is then
    answered, the user is set again and the application is shown, with no
    token in the cell, in storage or in the header. *)
Theorem profile_after_logout_signs_in (s : state) (profile : User) :
  me_requests s <> 0 ->
  let s' := step (step s Logout) (MeOk profile) in
  user s' = Some profile /\ view s' = AppScreen
  /\ token s' = None /\ localStorage_token s' = None
  /\ authorization s' = None.
Proof.
  intros Hme s'. subst s'.
  assert (Hout : exists b,
             step s Logout =
               {| user := None; token := None; loading := b;
                  localStorage_token := None; authorization := None;
                  me_requests := me_requests s |}).
  { unfold step, rerender. cbn [handle logout token].
    destruct (decide (None = token s)); eexists; reflexivity. }
  destruct Hout as [b ->].
  unfold step, rerender. cbn [handle me_requests].
  destruct (me_requests s); [congruence|].
  cbn. repeat split.
Qed.

Lemma profile_after_logout_signs_in_witness :
  let s := run None [LoginOk "a"; LoginOk "b"; MeOk Examples.farmer] in
  me_requests s <> 0
  /\ view s = AppScreen
  /\ (let s' := step (step s Logout) (MeOk Examples.farmer) in
      user s' = Some Examples.farmer /\ view s' = AppScreen
      /\ token s' = None /\ localStorage_token s' = None
      /\ authorization s' = None).
Proof.
  split; [vm_compute; discriminate|]. split; [reflexivity|].
  apply (profile_after_logout_signs_in
           (run None [LoginOk "a"; LoginOk "b"; MeOk Examples.farmer])
           Examples.farmer).
  vm_compute. discriminate.
Defined.

End SessionFacts.

(** ** More on the prediction form *)

Module FormFacts.
Import Predict.

Section Form.

Variable districts_of : string -> list string.
Variable user : option Auth.User.

(** X4.  Whatever the user does and however the requests settle, at most
    one [POST /predict-yield] is in flight, one is in flight exactly while
    [loading], and none is while a result is shown. *)
Theorem at_most_one_submission (es : list event) :
  let s := run districts_of user es in
  List.length (predict_requests s) <= 1
  /\ (loading s = true <-> predict_requests s <> [])
  /\ (is_Some (prediction s) ->
      predict_requests s = [] /\ loading s = false).
Proof.
  intros s.
  destruct (PredictFacts.submission_inv_run districts_of user es)
    as [(Hl & Hp & b & Hb)|(Hl & Hb)]; fold s in Hl, Hb;
    try fold s in Hp; rewrite Hl, Hb.
  - cbn. split; [lia|]. split; [split; [discriminate|reflexivity]|].
    rewrite Hp. intros [r Hr]. discriminate.
  - cbn. split; [lia|]. split; [split; [discriminate|congruence]|].
    auto.
Qed.

(** X5.  What an event can change: the form data change only by an input
    of the user, the district list only by the answer to a district
    request, the prediction only by the answer to a submission or by "Make
    Another Prediction". *)
Theorem cells_change_only_by (s : form) (e : event) :
  let s' := step districts_of user s e in
  (formData s' <> formData s -> exists field value, e = Change field value)
  /\ (districts s' <> districts s ->
      exists i st, e = DistrictsOk i /\ district_requests s !! i = Some st)
  /\ (prediction s' <> prediction s ->
      (exists r, e = PredictOk r) \/ e = MakeAnother).
Proof.
  intros s'. subst s'. unfold step.
  destruct (PredictFacts.rerender_cells (formData s !! "state")
              (handle districts_of user e s)) as (Hfd & Hds & _ & Hp & _).
  rewrite Hfd, Hds, Hp. clear Hfd Hds Hp.
  destruct e as [field value| | |i|i|r|err]; cbn [handle].
  - split; [eauto|]. split; intros Hne; exfalso; apply Hne;
      repeat case_match; cbn; congruence.
  - unfold handleSubmit.
    repeat split; intros Hne; exfalso; apply Hne;
      repeat case_match; cbn; congruence.
  - split; [|split; [|auto]]; intros Hne; exfalso; apply Hne;
      repeat case_match; cbn; congruence.
  - destruct (district_requests s !! i) as [st|] eqn:Hi.
    + split; [|split; [eauto|]]; intros Hne; exfalso; apply Hne; reflexivity.
    + repeat split; intros Hne; exfalso; apply Hne; reflexivity.
  - repeat split; intros Hne; exfalso; apply Hne;
      repeat case_match; cbn; congruence.
  - split; [|split; [|eauto]]; intros Hne; exfalso; apply Hne;
      repeat case_match; cbn; congruence.
  - repeat split; intros Hne; exfalso; apply Hne;
      repeat case_match; cbn; congruence.
Qed.

Lemma fields_present_step (s : form) (e : event) (key : string) :
  is_Some (formData s !! key) ->
  is_Some (formData (step districts_of user s e) !! key).
Proof.
  intros Hk. unfold step.
  destruct (PredictFacts.rerender_cells (formData s !! "state")
              (handle districts_of user e s)) as (-> & _).
  destruct e as [field value| | | | | |];
    try (rewrite PredictFacts.handle_formData by discriminate; exact Hk).
  cbn [handle]. repeat case_match; try exact Hk.
  rewrite PredictFacts.formData_handleInputChange.
  destruct (decide (field = key)) as [->|Hne].
  - rewrite lookup_insert_eq. eauto.
  - rewrite lookup_insert_ne by exact Hne. exact Hk.
Qed.

(** X6.  None of the seventeen fields of the form is ever removed: after
    any sequence of events each of them still holds a string, so every
    field that [requestData] copies into the request body is a string and
    never [undefined]. *)
Theorem fields_always_present (es : list event) :
  Forall
    (fun key => exists v, get (formData (run districts_of user es)) key = JS.Str v)
    Invariants.field_names.
Proof.
  assert (H : forall key, key ∈ Invariants.field_names ->
                is_Some (formData (run districts_of user es) !! key)).
  { intros key Hk. unfold run.
    assert (H0 : is_Some (formData init !! key)).
    { unfold Invariants.field_names in Hk.
      repeat (apply elem_of_cons in Hk as [->|Hk];
              [vm_compute; eauto|]).
      inversion Hk. }
    revert H0. generalize init as s.
    induction es as [|e es IH]; intros s Hs; [exact Hs|].
    cbn [foldl]. apply IH, fields_present_step, Hs. }
  apply Forall_forall. intros key Hk. destruct (H key Hk) as [v Hv].
  exists v. unfold get. rewrite Hv. reflexivity.
Qed.

End Form.

End FormFacts.

(** ** More on the chat *)

Module TranscriptFacts.
Import Chat.

Lemma space2_first (fwd : bool) (a b : ascii) :
  JS.space2 fwd a b = true -> JS.is_space a = false.
Proof.
  unfold JS.space2, JS.is_space2, JS.is_space.
  destruct fwd; rewrite andb_true_iff, !Nat.eqb_eq; intros [H1 H2];
    rewrite ?H1, ?H2; reflexivity.
Qed.

Lemma space3_first (fwd : bool) (a b c : ascii) :
  JS.space3 fwd a b c = true ->
  JS.is_space a = false /\ JS.space2 fwd a b = false.
Proof.
  unfold JS.space3, JS.space2, JS.is_space3, JS.is_space2, JS.is_space.
  destruct fwd; cbn zeta;
    rewrite !orb_true_iff, !andb_true_iff, !orb_true_iff, !andb_true_iff,
      !Nat.eqb_eq, !Nat.leb_le;
    intros H; decompose [and or] H; clear H;
    repeat match goal with
           | E : nat_of_ascii _ = _ |- _ => rewrite E; clear E
           end;
    try (split; reflexivity).
  all: split.
  all: try reflexivity.
  all: try (rewrite ?andb_false_r; reflexivity).
  all: rewrite ?orb_false_r, ?andb_false_iff, ?orb_false_iff, ?andb_false_iff,
         ?Nat.eqb_neq, ?Nat.leb_gt; lia.
Qed.


Lemma white_strip (fwd : bool) (l : list ascii) :
  JS.white fwd l -> JS.strip fwd l = [].
Proof.
  induction 1 as [|a l Ha _ IH|a b l Hab _ IH|a b c l Habc _ IH]; cbn.
  - reflexivity.
  - rewrite Ha. exact IH.
  - rewrite (space2_first fwd a b Hab), Hab. exact IH.
  - destruct (space3_first fwd a b c Habc) as [-> ->]. rewrite Habc. exact IH.
Qed.

(** [strip] either returns its argument, which then begins with no
    white-space code point, or is [strip] of a strictly shorter list. *)
Lemma strip_cases (fwd : bool) (l : list ascii) :
  (JS.strip fwd l = l /\ (JS.white fwd l -> l = []))
  \/ exists w l', l = w ++ l' /\ w <> [] /\ JS.white fwd w
                  /\ JS.strip fwd l = JS.strip fwd l'.
Proof.
  destruct l as [|a l1]; [left; split; [reflexivity|auto]|].
  cbn. destruct (JS.is_space a) eqn:Ha.
  { right. exists [a], l1. repeat split; [discriminate|].
    constructor; [exact Ha|constructor]. }
  destruct l1 as [|b l2].
  { left. split; [reflexivity|]. intros H. inversion H; subst; congruence. }
  destruct (JS.space2 fwd a b) eqn:Hab.
  { right. exists [a; b], l2. repeat split; [discriminate|].
    apply JS.white_2; [exact Hab|constructor]. }
  destruct l2 as [|c l3].
  { left. split; [reflexivity|]. intros H. inversion H; subst; congruence. }
  destruct (JS.space3 fwd a b c) eqn:Habc.
  { right. exists [a; b; c], l3. repeat split; [discriminate|].
    apply JS.white_3; [exact Habc|constructor]. }
  left. split; [reflexivity|]. intros H. inversion H; subst; congruence.
Qed.

Lemma white_app (fwd : bool) (l1 l2 : list ascii) :
  JS.white fwd l1 -> JS.white fwd l2 -> JS.white fwd (l1 ++ l2).
Proof.
  induction 1; intros H2; cbn;
    [ exact H2 | apply JS.white_1 | apply JS.white_2 | apply JS.white_3 ];
    auto.
Qed.

Lemma strip_spec (fwd : bool) (n : nat) (l : list ascii) :
  List.length l <= n ->
  exists w, l = w ++ JS.strip fwd l /\ JS.white fwd w
            /\ (JS.white fwd (JS.strip fwd l) -> JS.strip fwd l = []).
Proof.
  revert l. induction n as [|n IH]; intros l Hn.
  - destruct l; [|cbn in Hn; lia]. exists []. repeat split. constructor.
  - destruct (strip_cases fwd l) as [(Heq & Hw)|(w & l' & -> & Hne & Hw & Heq)].
    + exists []. rewrite Heq. repeat split; [constructor|exact Hw].
    + destruct (IH l') as (w' & Hl' & Hw' & Hs).
      { rewrite length_app in Hn. destruct w; [congruence|]. cbn in Hn. lia. }
      exists (w ++ w'). rewrite Heq. repeat split.
      * rewrite <- app_assoc, <- Hl'. reflexivity.
      * apply white_app; assumption.
      * exact Hs.
Qed.

Lemma strip_white (fwd : bool) (l : list ascii) :
  JS.strip fwd l = [] -> JS.white fwd l.
Proof.
  intros H. destruct (strip_spec fwd (List.length l) l) as (w & Hl & Hw & _);
    [lia|]. rewrite H, app_nil_r in Hl. subst. exact Hw.
Qed.

Lemma white_rev (fwd : bool) (l : list ascii) :
  JS.white fwd l -> JS.white (negb fwd) (rev l).
Proof.
  induction 1 as [|a l Ha _ IH|a b l Hab _ IH|a b c l Habc _ IH]; cbn.
  - constructor.
  - apply white_app; [exact IH|]. constructor; [exact Ha|constructor].
  - rewrite <- app_assoc. apply white_app; [exact IH|]. cbn.
    apply JS.white_2; [|constructor]. destruct fwd; exact Hab.
  - rewrite <- !app_assoc. apply white_app; [exact IH|]. cbn.
    apply JS.white_3; [|constructor]. destruct fwd; exact Habc.
Qed.

Lemma trim_nil_white (l : list ascii) :
  JS.trimEnd (JS.trimStart l) = [] <-> JS.white true l.
Proof.
  unfold JS.trimEnd, JS.trimStart. split.
  - intros H. apply (f_equal (@rev ascii)) in H.
    rewrite rev_involutive in H. cbn in H.
    apply strip_white, white_rev in H. rewrite rev_involutive in H. cbn in H.
    destruct (strip_spec true (List.length l) l) as (w & Hl & Hw & Hs); [lia|].
    rewrite (Hs H), app_nil_r in Hl. subst. exact Hw.
  - intros H. rewrite (white_strip true l H). reflexivity.
Qed.

Lemma string_of_list_ascii_empty (l : list ascii) :
  string_of_list_ascii l = "" <-> l = [].
Proof. destruct l; cbn; split; congruence. Qed.

Lemma blank_white (t : string) :
  blank t = true <-> JS.white true (list_ascii_of_string t).
Proof.
  unfold blank, JS.trim. cbn [JS.truthy]. rewrite negb_involutive.
  rewrite String.eqb_eq, string_of_list_ascii_empty. apply trim_nil_white.
Qed.

(** A text of one no-break space, U+00A0, is blank. *)
Example no_break_space_is_blank :
  blank (String (ascii_of_nat 194) (String (ascii_of_nat 160) "")) = true.
Proof. reflexivity. Qed.

(** X7.  The send button and the Enter key do nothing exactly when the
    pending text is empty or made of white-space code points only, the ones
    [trim] removes: TAB, LF, VT, FF, CR, SPACE, U+00A0, U+1680, U+2000 to
    U+200A, U+2028, U+2029, U+202F, U+205F, U+3000 and U+FEFF.  Otherwise,
    with no request outstanding, the text is appended to the transcript as
    it was typed, untrimmed, and is what is posted. *)
Theorem send_rejects_exactly_blank_text (s : chat) :
  (blank (newMessage s) = true <->
   JS.white true (list_ascii_of_string (newMessage s)))
  /\ (blank (newMessage s) = true ->
      step s ClickSend = s /\ step s PressEnter = s)
  /\ (blank (newMessage s) = false -> loading s = false ->
      step s ClickSend = step s PressEnter
      /\ messages (step s ClickSend) =
         messages s ++
           [ {| type := user; content := newMessage s;
                language := selectedLanguage s; recommendations := None |} ]
      /\ requests (step s ClickSend) =
         requests s ++
           [ {| message := newMessage s;
                payload_language := selectedLanguage s |} ]).
Proof.
  split; [apply blank_white|]. split.
  - intros Hb. cbn [step]. unfold sendMessage. rewrite Hb, orb_true_r.
    destruct (loading s); split; reflexivity.
  - intros Hb Hl. cbn [step]. unfold sendMessage. rewrite Hb, Hl. cbn.
    repeat split.
Qed.

(** X8.  The transcript is append-only: whatever happens, the turns it
    held are still there, unchanged and in the same order, at its start. *)
Theorem transcript_append_only (s : chat) (es : list event) :
  exists added, messages (run s es) = messages s ++ added.
Proof.
  revert s. induction es as [|e es IH]; intros s.
  - exists []. cbn. rewrite app_nil_r. reflexivity.
  - cbn [run foldl]. fold (run (step s e) es).
    destruct (IH (step s e)) as [added2 H2].
    destruct (ChatFacts.messages_step s e) as (added1 & H1 & _).
    exists (added1 ++ added2). rewrite H2, H1, app_assoc. reflexivity.
Qed.

(** X9.  A reply is tagged with the language that was selected when its
    question was sent, not with the one selected when it arrives: after an
    accepted send, a change of language and then the response, the
    transcript ends with the user's turn and the assistant's turn, both in
    the language of the send, while the selector shows the new one. *)
Theorem reply_in_language_of_send (s : chat) (e : event)
    (code response : string) (recs : option (list string)) :
  accepted s e = true ->
  requests s = [] ->
  let s' := run s [e; SelectLanguage code; ChatOk response recs] in
  messages s' =
    messages s ++
      [ {| type := user; content := newMessage s;
           language := selectedLanguage s; recommendations := None |};
        {| type := bot; content := response;
           language := selectedLanguage s; recommendations := recs |} ]
  /\ selectedLanguage s' = code
  /\ requests s' = [] /\ loading s' = false.
Proof.
  intros Ha Hq s'. subst s'.
  assert (Hs1 : step s e = sendMessage s /\ blank (newMessage s) = false).
  { destruct e; try discriminate; cbn in Ha |- *;
      apply andb_true_iff in Ha as [Hl Hb];
      apply negb_true_iff in Hl, Hb; rewrite Hl, ?Hb; auto. }
  destruct Hs1 as [Hs1 Hb]. cbn [run foldl]. rewrite Hs1.
  unfold sendMessage. rewrite Hb. cbn. rewrite Hq. cbn.
  rewrite <- app_assoc. repeat split.
Qed.

Lemma reply_in_language_of_send_witness :
  let s := run init [Type_ "When to sow rice?"] in
  let s' := run s [ClickSend; SelectLanguage "hi"; ChatOk "In June." None] in
  messages s' =
    messages s ++
      [ {| type := user; content := newMessage s;
           language := selectedLanguage s; recommendations := None |};
        {| type := bot; content := "In June.";
           language := selectedLanguage s; recommendations := None |} ]
  /\ selectedLanguage s' = "hi"
  /\ requests s' = [] /\ loading s' = false.
Proof.
  apply (reply_in_language_of_send (run init [Type_ "When to sow rice?"])
           ClickSend "hi" "In June." None).
  - vm_compute. reflexivity.
  - reflexivity.
Defined.

Lemma requests_step (s : chat) (e : event) :
  List.length (requests (step s e))
  + (if succeeded s e then 1 else 0) + (if failed s e then 1 else 0)
  = List.length (requests s) + (if accepted s e then 1 else 0).
Proof.
  destruct e; cbn [step succeeded failed accepted]; unfold sendMessage;
    destruct (loading s), (blank (newMessage s));
    repeat case_match; cbn; rewrite ?length_app; cbn;
    repeat match goal with H : requests s = _ |- _ => rewrite H end;
    cbn; lia.
Qed.

Lemma requests_run (es : list event) (s : chat) :
  List.length (requests (run s es))
  + count succeeded s es + count failed s es
  = List.length (requests s) + count accepted s es.
Proof.
  revert s. induction es as [|e es IH]; intros s.
  - cbn. lia.
  - cbn [run foldl count]. fold (run (step s e) es).
    pose proof (IH (step s e)). pose proof (requests_step s e). lia.
Qed.

(** X10.  Every accepted send is accounted for: at any moment the number
    of accepted sends is the number of successful responses plus the number
    of failed ones plus the requests still in flight, of which there is at
    most one.  So the assistant's turns never outnumber the user's by more
    than the greeting. *)
Theorem sends_accounted_for (es : list event) :
  let s := run init es in
  count accepted init es =
    count succeeded init es + count failed init es
    + List.length (requests s)
  /\ List.length (requests s) <= 1
  /\ bot_turns s <= user_turns s + 1.
Proof.
  intros s. pose proof (requests_run es init) as Hr. fold s in Hr.
  cbn in Hr. split; [lia|]. split.
  - destruct (ChatFacts.chat_inv_run es init ChatFacts.chat_inv_init)
      as [(_ & sent & Hq)|(_ & Hq)]; fold s in Hq; rewrite Hq; cbn; lia.
  - destruct (ChatFacts.turns_run es init) as [Hu Hb]. fold s in Hu, Hb.
    rewrite Hu, Hb. change (bot_turns init) with 1.
    change (user_turns init) with 0. lia.
Qed.

End TranscriptFacts.

(** ** The option lists, the dashboard and the weather *)

Module ViewFacts.

Lemma refs_run_cells (es : list RefData.event) (s : RefData.refs) :
  let s' := RefData.run s es in
  RefData.states s' =
    (if RefData.states_request s then
       match RefData.states_answer es with
       | RefData.Answered l => l
       | _ => RefData.states s
       end
     else RefData.states s)
  /\ RefData.crops s' =
    (if RefData.crops_request s then
       match RefData.crops_answer es with
       | RefData.Answered l => l
       | _ => RefData.crops s
       end
     else RefData.crops s)
  /\ RefData.soilTypes s' =
    (if RefData.soilTypes_request s then
       match RefData.soilTypes_answer es with
       | RefData.Answered l => l
       | _ => RefData.soilTypes s
       end
     else RefData.soilTypes s)
  /\ RefData.states_request s' =
     RefData.states_request s
     && RefData.is_pending (RefData.states_answer es)
  /\ RefData.crops_request s' =
     RefData.crops_request s
     && RefData.is_pending (RefData.crops_answer es)
  /\ RefData.soilTypes_request s' =
     RefData.soilTypes_request s
     && RefData.is_pending (RefData.soilTypes_answer es)
  /\ List.length (RefData.toasts s') =
     List.length (RefData.toasts s)
     + (if RefData.states_request s
        then RefData.is_failed (RefData.states_answer es) else 0)
     + (if RefData.crops_request s
        then RefData.is_failed (RefData.crops_answer es) else 0)
     + (if RefData.soilTypes_request s
        then RefData.is_failed (RefData.soilTypes_answer es) else 0).
Proof.
  revert s. induction es as [|e es IH]; intros s.
  - cbn. rewrite !andb_true_r.
    destruct (RefData.states_request s), (RefData.crops_request s),
      (RefData.soilTypes_request s); repeat split; lia.
  - cbn zeta. cbn [RefData.run foldl]. fold (RefData.run (RefData.step s e) es).
    destruct (IH (RefData.step s e)) as (H1 & H2 & H3 & H4 & H5 & H6 & H7).
    cbn zeta in *. rewrite H1, H2, H3, H4, H5, H6, H7. clear.
    destruct e; cbn [RefData.step RefData.states_answer RefData.crops_answer
                       RefData.soilTypes_answer];
      destruct (RefData.states_request s) eqn:Es,
        (RefData.crops_request s) eqn:Ec,
        (RefData.soilTypes_request s) eqn:Eo;
      cbn; unfold RefData.failure; rewrite ?Es, ?Ec, ?Eo, ?length_app; cbn;
      repeat split; try lia;
      repeat case_match; cbn; try reflexivity; try lia.
Qed.


Lemma crop_label_truthy (p : Dashboard.prediction_t) :
  JS.truthy (Dashboard.crop_label p) = true.
Proof.
  unfold Dashboard.crop_label, JS.or_else.
  destruct (JS.truthy match Dashboard.input_data p with
                      | Some _ => _ | None => _ end) eqn:H;
    [exact H|reflexivity].
Qed.


Lemma Qle_bool_false (x y : Q) : Qle_bool x y = false <-> (y < x)%Q.
Proof.
  split.
  - intros H. destruct (Qlt_le_dec y x) as [Hlt|Hle]; [exact Hlt|].
    apply Qle_bool_iff in Hle. congruence.
  - intros H. destruct (Qle_bool x y) eqn:E; [|reflexivity].
    apply Qle_bool_iff in E. exfalso. apply (Qlt_not_le _ _ H E).
Qed.



(** X14.  The weather view never ends without data.  It shows the
    placeholder while its request is in flight; once the request settles,
    either way, it shows cards.  On a failure the data are the sample
    (28.5, 65, 2.5, "partly cloudy") and the only notification is an
    informative one, not an error.  In the cards a figure that is missing,
    null, zero, NaN or empty is shown as 0 and any other as it is; such a
    description is shown as "Clear" and any other as it is. *)
Theorem weather_always_shows_data (e : Weather.event) :
  let s := Weather.step Weather.mounted e in
  Weather.render Weather.mounted = None
  /\ Weather.loading s = false
  /\ is_Some (Weather.weatherData s)
  /\ Weather.render s = Some (Weather.cards_of s)
  /\ (forall e', Weather.step s e' = s)
  /\ (e = Weather.WeatherFail ->
      Weather.weatherData s =
        Some {| Weather.temperature := JS.Num (JS.Fin (57 # 2));
                Weather.humidity := JS.Num (JS.Fin (65 # 1));
                Weather.description := JS.Str "partly cloudy";
                Weather.rainfall := JS.Num (JS.Fin (5 # 2)) |}
      /\ Weather.toasts s =
         [ {| Predict.title := "Info";
              Predict.description := JS.Str "Using sample weather data";
              Predict.destructive := false |} ]
      /\ Weather.cards_of s =
         {| Weather.temperature_card := JS.Num (JS.Fin (57 # 2));
            Weather.humidity_card := JS.Num (JS.Fin (65 # 1));
            Weather.rainfall_card := JS.Num (JS.Fin (5 # 2));
            Weather.condition_card := JS.Str "partly cloudy" |})
  /\ (forall data, e = Weather.WeatherOk data ->
      Weather.weatherData s = Some data /\ Weather.toasts s = [])
  /\ (forall s',
        Weather.weatherData s' = None ->
        Weather.cards_of s' =
          {| Weather.temperature_card := JS.Num (JS.Fin 0);
             Weather.humidity_card := JS.Num (JS.Fin 0);
             Weather.rainfall_card := JS.Num (JS.Fin 0);
             Weather.condition_card := JS.Str "Clear" |})
  /\ (forall s' d,
        Weather.weatherData s' = Some d ->
        Weather.cards_of s' =
          {| Weather.temperature_card :=
               if JS.truthy (Weather.temperature d)
               then Weather.temperature d else JS.Num (JS.Fin 0);
             Weather.humidity_card :=
               if JS.truthy (Weather.humidity d)
               then Weather.humidity d else JS.Num (JS.Fin 0);
             Weather.rainfall_card :=
               if JS.truthy (Weather.rainfall d)
               then Weather.rainfall d else JS.Num (JS.Fin 0);
             Weather.condition_card :=
               if JS.truthy (Weather.description d)
               then Weather.description d else JS.Str "Clear" |})
  /\ Forall (fun v => JS.truthy v = false)
       [ JS.Undefined; JS.Null; JS.Str ""; JS.Num JS.NaN; JS.Num (JS.Fin 0) ].
Proof.
  intros s. subst s.
  split; [reflexivity|]. split; [destruct e; reflexivity|].
  split; [destruct e; cbn; eauto|]. split; [destruct e; reflexivity|].
  split; [intros e'; destruct e; reflexivity|].
  split; [intros ->; repeat split|].
  split; [intros data ->; split; reflexivity|].
  split; [|split].
  - intros s' Hs'. unfold Weather.cards_of, Weather.field. rewrite Hs'.
    reflexivity.
  - intros s' d Hs'. unfold Weather.cards_of, Weather.field, JS.or_else.
    rewrite Hs'. reflexivity.
  - repeat constructor.
Qed.

End ViewFacts.

(** ** The login form *)

Module LoginFacts.
Import Login.

Lemma login_inv_step (s : login_form) (e : event) :
  login_inv s -> login_inv (step s e).
Proof.
  unfold login_inv.
  intros [(Hl & sent & Hq)|(Hl & Hq)]; destruct e; cbn [step];
    unfold handleSubmit; rewrite ?Hl, ?Hq; cbn;
    repeat case_match; cbn; rewrite ?Hl, ?Hq; eauto.
Qed.

Lemma login_inv_run (es : list event) (s : login_form) :
  login_inv s -> login_inv (run s es).
Proof.
  revert s. induction es as [|e es IH]; intros s Hs; [exact Hs|].
  apply IH, login_inv_step, Hs.
Qed.

Lemma formData_step (s : login_form) (e : event) :
  formData (step s e) <> formData s ->
  (exists v, e = SetEmail v) \/ (exists v, e = SetPassword v)
  \/ (isLogin s = false /\ ((exists v, e = SetName v) \/ exists v, e = SetPhone v)).
Proof.
  destruct e; cbn [step]; unfold handleSubmit; intros Hne; eauto;
    try (destruct (isLogin s); [exfalso; apply Hne; reflexivity|eauto 6]);
    exfalso; apply Hne; repeat case_match; reflexivity.
Qed.

(** X15.  In the login form at most one call of [login] or [register] is
    in flight, exactly while the button is disabled, and submitting,
    toggling the mode and the settling of a call never touch what was
    typed: the fields change only by typing into them, the name and the
    phone number only in registration mode. *)
Theorem login_form_keeps_fields (es : list event) :
  let s := run init es in
  List.length (requests s) <= 1
  /\ (loading s = true <-> requests s <> [])
  /\ (forall e,
        formData (step s e) <> formData s ->
        (exists v, e = SetEmail v) \/ (exists v, e = SetPassword v)
        \/ (isLogin s = false
            /\ ((exists v, e = SetName v) \/ exists v, e = SetPhone v))).
Proof.
  intros s. split; [|split; [|apply formData_step]].
  - destruct (login_inv_run es init) as [(_ & sent & Hq)|(_ & Hq)];
      [right; split; reflexivity| | ]; fold s in Hq; rewrite Hq; cbn; lia.
  - destruct (login_inv_run es init) as [(Hl & sent & Hq)|(Hl & Hq)];
      [right; split; reflexivity| | ]; fold s in Hl, Hq; rewrite Hl, Hq;
      split; congruence.
Qed.



End LoginFacts.

(** ** The application: screens, tabs and mounted components *)

Module AppFacts.
Import App.

Lemma renderContent_predict (tab : string) :
  renderContent tab = ThePredictionForm -> tab = "predict".
Proof.
  unfold renderContent.
  destruct (String.eqb_spec tab "dashboard"); [discriminate|].
  destruct (String.eqb_spec tab "predict"); [auto|].
  destruct (String.eqb_spec tab "weather"); [discriminate|].
  destruct (String.eqb_spec tab "chat"); discriminate.
Qed.

Lemma child_of_matches (a : Auth.state) (tab : string)
    (o : list Login.request) :
  child_matches {| auth := a; activeTab := tab; child := child_of a tab;
                   orphans := o |}.
Proof.
  unfold child_matches, child_of. cbn.
  destruct (Auth.view a); cbn; auto.
  destruct (renderContent tab); reflexivity.
Qed.

Lemma with_auth_matches (a : Auth.state) (s : app) :
  child_matches s -> child_matches (with_auth a s).
Proof.
  intros H. unfold with_auth. case_decide as Hv.
  - unfold child_matches in *. cbn. rewrite Hv. exact H.
  - apply child_of_matches.
Qed.

Section Steps.

Variable districts_of : string -> list string.

Lemma with_child_matches (s : app) (c : mounted) :
  child_matches s ->
  match child s, c with
  | Blank, Blank | OfLogin _, OfLogin _ | OfDashboard _, OfDashboard _
  | OfPredict _ _, OfPredict _ _ | OfWeather _, OfWeather _
  | OfChat _, OfChat _ => True
  | _, _ => False
  end ->
  child_matches (with_child c s).
Proof.
  unfold child_matches, with_child. cbn.
  destruct (Auth.view (auth s)), (child s), c; auto; contradiction.
Qed.

Lemma child_matches_step (s : app) (e : event) :
  child_matches s -> child_matches (step districts_of s e).
Proof.
  intros H.
  destruct e as [profile| |t|err|t| |ev|id| |ev|ev|ev|ev|ev]; cbn [step].
  - apply with_auth_matches, H.
  - apply with_auth_matches, H.
  - destruct (child s) as [|l| | | |] eqn:Hc; try exact H.
    destruct (Login.requests l) as [|[] ?]; try exact H;
      apply with_auth_matches, with_child_matches; try exact H;
      rewrite Hc; exact I.
  - destruct (child s) as [|l| | | |] eqn:Hc; try exact H.
    destruct (Login.requests l) as [|[] ?]; try exact H;
      apply with_auth_matches, with_child_matches; try exact H;
      rewrite Hc; exact I.
  - destruct (orphans s) as [|[] rest]; try exact H;
      apply with_auth_matches; exact H.
  - destruct (orphans s) as [|? rest]; exact H.
  - destruct (child s) as [|l| | | |] eqn:Hc; try exact H.
    destruct (Login.is_ui ev); [|exact H].
    apply with_child_matches; [exact H|]. rewrite Hc. exact I.
  - (* a tab of the navigation bar *)
    destruct (Auth.view (auth s)) eqn:Hv; try exact H.
    case_bool_decide; [|exact H].
    unfold setActiveTab, child_matches in *. cbn. rewrite Hv in *.
    case_decide as Hr.
    + rewrite Hr. exact H.
    + destruct (renderContent id); reflexivity.
  - (* logout *)
    destruct (Auth.view (auth s)); try exact H.
    apply with_auth_matches, H.
  - destruct (child s) eqn:Hc; try exact H.
    apply with_child_matches; [exact H|]. rewrite Hc. exact I.
  - destruct (child s) eqn:Hc; try exact H.
    apply with_child_matches; [exact H|]. rewrite Hc. exact I.
  - destruct (child s) eqn:Hc; try exact H.
    apply with_child_matches; [exact H|]. rewrite Hc. exact I.
  - destruct (child s) eqn:Hc; try exact H.
    apply with_child_matches; [exact H|]. rewrite Hc. exact I.
  - destruct (child s) eqn:Hc; try exact H.
    apply with_child_matches; [exact H|]. rewrite Hc. exact I.
Qed.

(** X17.  What is mounted always fits the session: nothing behind the
    loading screen, the login form exactly while there is no user, and a
    tab's component only while a user is signed in.  In particular the
    prediction form exists only on the "predict" tab and only with a
    signed-in user, so it never builds a request without a user. *)
Theorem components_fit_session (persisted : option string) (es : list event) :
  let s := run districts_of persisted es in
  child_matches s
  /\ (forall l, child s = OfLogin l ->
        Auth.user (auth s) = None /\ Auth.loading (auth s) = false)
  /\ (forall f r, child s = OfPredict f r ->
        activeTab s = "predict"
        /\ exists u, Auth.user (auth s) = Some u
                     /\ exists body,
                          Predict.requestData (Auth.user (auth s))
                            (Predict.formData f) = Some body
                          /\ Predict.user_id body = Auth.id u)
  /\ (forall c, child s = OfChat c -> exists u, Auth.user (auth s) = Some u).
Proof.
  intros s.
  assert (H : child_matches s).
  { subst s. unfold run.
    assert (H0 : child_matches (start persisted)) by apply child_of_matches.
    revert H0. generalize (start persisted) as s.
    induction es as [|e es IH]; intros s Hs; [exact Hs|].
    cbn [foldl]. apply IH, child_matches_step, Hs. }
  split; [exact H|].
  unfold child_matches, Auth.view in H.
  split; [|split].
  - intros l Hl. rewrite Hl in H.
    destruct (Auth.loading (auth s)); [contradiction|].
    destruct (Auth.user (auth s)); [contradiction|]. auto.
  - intros f r Hf. rewrite Hf in H.
    destruct (Auth.loading (auth s)); [contradiction|].
    destruct (Auth.user (auth s)) as [u|]; [|contradiction].
    split; [apply renderContent_predict, H|].
    exists u. split; [reflexivity|]. eexists. split; reflexivity.
  - intros c Hc. rewrite Hc in H.
    destruct (Auth.loading (auth s)); [contradiction|].
    destruct (Auth.user (auth s)) as [u|]; [eauto|contradiction].
Qed.

Lemma step_NavClick (s : app) (id : string) :
  Auth.view (auth s) = Auth.AppScreen ->
  id ∈ navItems ->
  step districts_of s (NavClick id) = setActiveTab id s.
Proof.
  intros Hv Hid. cbn [step]. rewrite Hv, (bool_decide_true _ Hid). reflexivity.
Qed.

(** X18.  Leaving the prediction form for another tab and coming back
    mounts a new form: whatever had been typed, requested or predicted, the
    form is the initial, blank one with its three option lists requested
    again.  Clicking the tab that is already shown keeps the form as it
    is. *)
Theorem leaving_the_tab_resets_the_form
    (s : app) (f : Predict.form) (r : RefData.refs) (id : string) :
  Auth.view (auth s) = Auth.AppScreen ->
  activeTab s = "predict" ->
  child s = OfPredict f r ->
  id ∈ navItems ->
  id <> "predict" ->
  step districts_of s (NavClick "predict") =
    {| auth := auth s; activeTab := "predict"; child := OfPredict f r;
       orphans := orphans s |}
  /\ step districts_of (step districts_of s (NavClick id)) (NavClick "predict")
     = {| auth := auth s; activeTab := "predict";
          child := OfPredict Predict.init RefData.mounted;
          orphans := orphans s |}.
Proof.
  intros Hv Htab Hc Hid Hne.
  assert (Hin : "predict" ∈ navItems)
    by (unfold navItems; rewrite !elem_of_cons; auto).
  assert (Hother : renderContent id <> ThePredictionForm).
  { intros E. apply renderContent_predict in E. contradiction. }
  rewrite !step_NavClick; try assumption.
  - unfold setActiveTab. cbn [auth activeTab child orphans].
    rewrite Htab, Hc.
    rewrite (decide_True (P := renderContent "predict" = renderContent "predict"))
      by reflexivity.
    rewrite (decide_False (P := renderContent id = renderContent "predict"))
      by exact Hother.
    rewrite (decide_False (P := renderContent "predict" = renderContent id))
      by (intros E; apply Hother; rewrite <- E; reflexivity).
    split; reflexivity.
  - rewrite step_NavClick by assumption. exact Hv.
Qed.

Lemma logout_at_app_screen (a : Auth.state) :
  Auth.view a = Auth.AppScreen ->
  Auth.step a Auth.Logout =
    {| Auth.user := None; Auth.token := None; Auth.loading := false;
       Auth.localStorage_token := None; Auth.authorization := None;
       Auth.me_requests := Auth.me_requests a |}.
Proof.
  unfold Auth.view. destruct (Auth.loading a) eqn:Hl; [discriminate|].
  intros _. unfold Auth.step, Auth.rerender. cbn.
  destruct (decide (None = Auth.token a)); [|reflexivity].
  unfold Auth.logout. rewrite Hl. reflexivity.
Qed.

(** X19.  The active tab outlives the session: after a logout the login
    form is shown, blank, and when the user has signed in again, by a
    login and the profile request it triggers, the application opens on the
    tab that was active before the logout, with that tab's component
    mounted afresh. *)
Theorem tab_survives_logout
    (s : app) (mail pass t : string) (profile : Auth.User) :
  Auth.view (auth s) = Auth.AppScreen ->
  t <> "" ->
  let s1 := step districts_of s LogoutClick in
  let s2 :=
    foldl (step districts_of) s1
      [ OnLogin (Login.SetEmail mail); OnLogin (Login.SetPassword pass);
        OnLogin Login.Submit; AuthAccepted t ] in
  let s3 := step districts_of s2 (ProfileOk profile) in
  (child s1 = OfLogin Login.init /\ activeTab s1 = activeTab s
   /\ Auth.view (auth s1) = Auth.LoginScreen)
  /\ (Auth.view (auth s2) = Auth.LoginScreen
      /\ Auth.token (auth s2) = Some t
      /\ exists l, child s2 = OfLogin l
                   /\ Login.loading l = false
                   /\ Login.toasts l =
                      [ {| Predict.title := "Success";
                           Predict.description :=
                             JS.Str "Logged in successfully!";
                           Predict.destructive := false |} ])
  /\ (Auth.user (auth s3) = Some profile
      /\ activeTab s3 = activeTab s
      /\ child s3 = mount (renderContent (activeTab s))).
Proof.
  intros Hv Ht s1 s2 s3.
  assert (Hs1 : s1 =
            {| auth :=
                 {| Auth.user := None; Auth.token := None;
                    Auth.loading := false;
                    Auth.localStorage_token := None;
                    Auth.authorization := None;
                    Auth.me_requests := Auth.me_requests (auth s) |};
               activeTab := activeTab s;
               child := OfLogin Login.init;
               orphans := orphans s ++ calls_of (child s) |}).
  { subst s1. cbn [step]. rewrite Hv, (logout_at_app_screen _ Hv).
    unfold with_auth. rewrite Hv. cbn. reflexivity. }
  assert (Hs2 : s2 =
            {| auth :=
                 {| Auth.user := None; Auth.token := Some t;
                    Auth.loading := false;
                    Auth.localStorage_token := Some t;
                    Auth.authorization := Some (Auth.bearer t);
                    Auth.me_requests := S (Auth.me_requests (auth s)) |};
               activeTab := activeTab s;
               child :=
                 OfLogin
                   {| Login.isLogin := true;
                      Login.formData :=
                        {| Login.email := mail; Login.password := pass;
                           Login.name := ""; Login.phone := "" |};
                      Login.loading := false;
                      Login.toasts :=
                        [Predict.success_toast "Logged in successfully!"];
                      Login.requests := [] |};
               orphans := orphans s ++ calls_of (child s) |}).
  { subst s2. rewrite Hs1. cbn -[Auth.step].
    rewrite SessionFacts.step_login_then by (cbn; congruence).
    unfold with_auth. cbn. reflexivity. }
  split; [rewrite Hs1; repeat split|].
  split.
  - rewrite Hs2. repeat split. eexists. repeat split.
  - subst s3. rewrite Hs2. cbn [step auth].
    unfold Auth.step, Auth.rerender. cbn.
    rewrite decide_True by reflexivity.
    unfold with_auth. cbn. repeat split.
Qed.

End Steps.

Lemma tab_survives_logout_witness :
  let s :=
    foldl (step Examples.server) (start (Some "old"))
      [ProfileOk Examples.farmer; NavClick "chat"] in
  child s = OfChat Chat.init
  /\ (let s1 := step Examples.server s LogoutClick in
      let s2 :=
        foldl (step Examples.server) s1
          [ OnLogin (Login.SetEmail "farmer@example.org");
            OnLogin (Login.SetPassword "secret");
            OnLogin Login.Submit; AuthAccepted "new" ] in
      let s3 := step Examples.server s2 (ProfileOk Examples.farmer) in
      child s3 = OfChat Chat.init /\ activeTab s3 = "chat").
Proof.
  split; [vm_compute; reflexivity|].
  pose proof (tab_survives_logout Examples.server
                (foldl (step Examples.server) (start (Some "old"))
                   [ProfileOk Examples.farmer; NavClick "chat"])
                "farmer@example.org" "secret" "new" Examples.farmer) as H.
  cbv zeta in H. destruct H as (_ & _ & _ & Htab & Hchild).
  - vm_compute. reflexivity.
  - discriminate.
  - cbv zeta. split; [rewrite Hchild|rewrite Htab]; vm_compute; reflexivity.
Defined.

Lemma leaving_the_tab_resets_the_form_witness :
  let s :=
    foldl (step Examples.server) (start (Some "old"))
      [ ProfileOk Examples.farmer; NavClick "predict";
        OnPredict (Predict.Change "state" "Odisha");
        OnPredict (Predict.Change "crop_name" "Rice") ] in
  (exists f r, child s = OfPredict f r
               /\ Predict.formData f !! "crop_name" = Some "Rice")
  /\ child
       (step Examples.server (step Examples.server s (NavClick "weather"))
          (NavClick "predict"))
     = OfPredict Predict.init RefData.mounted.
Proof.
  split; [vm_compute; eauto|].
  pose proof (fun f r =>
    leaving_the_tab_resets_the_form Examples.server
      (foldl (step Examples.server) (start (Some "old"))
         [ ProfileOk Examples.farmer; NavClick "predict";
           OnPredict (Predict.Change "state" "Odisha");
           OnPredict (Predict.Change "crop_name" "Rice") ])
      f r "weather") as H.
  cbv zeta.
  edestruct H as [_ ->];
    [ vm_compute; reflexivity | vm_compute; reflexivity
    | vm_compute; reflexivity
    | unfold navItems; rewrite !elem_of_cons; auto
    | discriminate
    | reflexivity ].
Defined.

End AppFacts.
